(** * Verification of the YouTube search / caption summarizer scripts

    Shallow embedding of the two Python modules of the repository:
    - [Youtube_search.py]: [format_duration], [fetch_youtube_data] and
      [on_run_button_click];
    - [excel_summarizer.py]: [load_api_keys], [extract_video_id],
      [get_video_title_async], [get_video_summary_async],
      [save_excel_with_formatting], [open_file], [process_excel_thread] and
      the window's [select_input_file], [process_single_url],
      [start_processing] and [stop_processing].

    Network services (YouTube Data API, transcript API, OpenAI) are modelled
    as the sequence of answers they give; the Python control flow around
    them (try/except, loops, early returns) is written out. *)

From Stdlib Require Import String Ascii List Arith Lia Bool.
From Stdlib Require Import Numbers.DecimalString Numbers.DecimalNat.
From Stdlib Require Import Sorting.Sorted.
Import ListNotations.
Open Scope string_scope.

(* ------------------------------------------------------------------ *)
(** ** [format_duration] (Youtube_search.py, lines 29-41) *)

Module Duration.

(** [str(n)] for a non-negative Python int: decimal digits, no leading zero. *)
Definition py_str_nat (n : nat) : string :=
  NilZero.string_of_uint (Nat.to_uint n).

Fixpoint zeros (k : nat) : string :=
  match k with
  | O => EmptyString
  | S k' => String "0" (zeros k')
  end.

(** [f"{n:02}"]: decimal rendering, left-padded with ['0'] to width 2. *)
Definition fmt02 (n : nat) : string :=
  let s := py_str_nat n in zeros (2 - String.length s) ++ s.

(** [format_duration] after [isodate.parse_duration(duration).total_seconds()]:
    the argument is the total number of seconds of the parsed duration.
<<
    hours, remainder = divmod(total_seconds, 3600)
    minutes, seconds = divmod(remainder, 60)
    return f"{int(hours):02}:{int(minutes):02}:{int(seconds):02}"
>> *)
Definition format_duration (total_seconds : nat) : string :=
  let hours := total_seconds / 3600 in
  let remainder := total_seconds mod 3600 in
  let minutes := remainder / 60 in
  let seconds := remainder mod 60 in
  fmt02 hours ++ ":" ++ fmt02 minutes ++ ":" ++ fmt02 seconds.

(** Reading a field of digits back as a number (leading zeros allowed). *)
Definition digits_value (s : string) : option nat :=
  option_map Nat.of_uint (NilZero.uint_of_string s).

End Duration.

(* ------------------------------------------------------------------ *)
(** ** String helpers (the [str] methods used by the code) *)

Module PyStr.

(** [s.startswith(p)] *)
Fixpoint starts_with (p s : string) : bool :=
  match p, s with
  | EmptyString, _ => true
  | String a p', String b s' => Ascii.eqb a b && starts_with p' s'
  | String _ _, EmptyString => false
  end.

(** [needle in hay] *)
Fixpoint contains (needle hay : string) : bool :=
  starts_with needle hay ||
  match hay with
  | EmptyString => false
  | String _ hay' => contains needle hay'
  end.

Fixpoint drop (n : nat) (s : string) : string :=
  match n, s with
  | O, _ => s
  | S n', String _ s' => drop n' s'
  | S _, EmptyString => EmptyString
  end.

Fixpoint take_while (f : ascii -> bool) (s : string) : string :=
  match s with
  | String a s' => if f a then String a (take_while f s') else EmptyString
  | EmptyString => EmptyString
  end.

(** [s.split(c)] for a one-character separator: never empty. *)
Fixpoint split_char (c : ascii) (s : string) : list string :=
  match s with
  | EmptyString => [EmptyString]
  | String a s' =>
      let parts := split_char c s' in
      if Ascii.eqb a c then EmptyString :: parts
      else match parts with
           | p :: ps => String a p :: ps
           | [] => [String a EmptyString]
           end
  end.

(** [s.split(c, 1)] when [c in s]: the text before and after the first [c]. *)
Fixpoint split_once (c : ascii) (s : string) : option (string * string) :=
  match s with
  | EmptyString => None
  | String a s' =>
      if Ascii.eqb a c then Some (EmptyString, s')
      else match split_once c s' with
           | Some (pre, post) => Some (String a pre, post)
           | None => None
           end
  end.

(** Split at the first character satisfying [stop]. *)
Fixpoint span_until (stop : ascii -> bool) (s : string) : string * string :=
  match s with
  | EmptyString => (EmptyString, EmptyString)
  | String a s' =>
      if stop a then (EmptyString, s)
      else let (pre, post) := span_until stop s' in (String a pre, post)
  end.

Fixpoint filter_str (f : ascii -> bool) (s : string) : string :=
  match s with
  | EmptyString => EmptyString
  | String a s' => if f a then String a (filter_str f s') else filter_str f s'
  end.

Fixpoint lstrip (f : ascii -> bool) (s : string) : string :=
  match s with
  | String a s' => if f a then lstrip f s' else s
  | EmptyString => EmptyString
  end.

Fixpoint forall_str (f : ascii -> bool) (s : string) : bool :=
  match s with
  | EmptyString => true
  | String a s' => f a && forall_str f s'
  end.

Definition in_range (lo hi : nat) (c : ascii) : bool :=
  Nat.leb lo (nat_of_ascii c) && Nat.leb (nat_of_ascii c) hi.

Definition is_alpha (c : ascii) : bool :=
  in_range 97 122 c || in_range 65 90 c.

Definition is_digit (c : ascii) : bool := in_range 48 57 c.

(** Python truthiness of a string: non-empty. *)
Definition truthy (s : string) : bool :=
  match s with EmptyString => false | _ => true end.

End PyStr.

(* ------------------------------------------------------------------ *)
(** ** [extract_video_id] (excel_summarizer.py, lines 88-118) *)

Module Extract.
Import PyStr.

(** A spreadsheet cell as pandas hands it to the code: a string, a missing
    value ([None]), a number ([NaN] for an empty cell) or a boolean. *)
Inductive pyval : Type :=
| PyNone
| PyBool (b : bool)
| PyInt (z : nat) (negative : bool)
| PyFloat_NaN
| PyFloat (is_zero : bool)
| PyStr (s : string).

(** Python truthiness ([bool(x)]). *)
Definition py_truthy (v : pyval) : bool :=
  match v with
  | PyNone => false
  | PyBool b => b
  | PyInt z _ => negb (Nat.eqb z 0)
  | PyFloat_NaN => true
  | PyFloat is_zero => negb is_zero
  | PyStr s => truthy s
  end.

Definition is_str (v : pyval) : bool :=
  match v with PyStr _ => true | _ => false end.

(** The character class [[a-zA-Z0-9_-]]. *)
Definition is_id_char (c : ascii) : bool :=
  is_alpha c || is_digit c || Ascii.eqb c "_" || Ascii.eqb c "-".

(** [re.search(r'shorts/([a-zA-Z0-9_-]+)', url).group(1)]: the leftmost
    position where ["shorts/"] is followed by at least one id character;
    the group is the greedy run of id characters there. *)
Fixpoint search_shorts (s : string) : option string :=
  match s with
  | EmptyString => None
  | String _ rest =>
      if starts_with "shorts/" s then
        match take_while is_id_char (drop 7 s) with
        | EmptyString => search_shorts rest
        | g => Some g
        end
      else search_shorts rest
  end.

(** [urllib.parse] constants. *)
Definition is_c0_or_space (c : ascii) : bool := Nat.leb (nat_of_ascii c) 32.
Definition is_unsafe_byte (c : ascii) : bool :=
  Ascii.eqb c "009" || Ascii.eqb c "013" || Ascii.eqb c "010".
Definition is_scheme_char (c : ascii) : bool :=
  is_alpha c || is_digit c || Ascii.eqb c "+" || Ascii.eqb c "-" || Ascii.eqb c ".".
Definition is_netloc_delim (c : ascii) : bool :=
  Ascii.eqb c "/" || Ascii.eqb c "?" || Ascii.eqb c "#".

(** [urlparse(url).query], [None] when [urlsplit] raises [ValueError]
    ("Invalid IPv6 URL": unbalanced brackets in the network location).
    The bracketed-host validation of recent Python versions and the NFKC
    check of non-ASCII network locations are not modelled. *)
Definition urlparse_query (url0 : string) : option string :=
  let url1 := filter_str (fun c => negb (is_unsafe_byte c))
                         (lstrip is_c0_or_space url0) in
  let url2 :=
    match split_once ":" url1 with
    | Some (pre, post) =>
        match pre with
        | String c _ => if is_alpha c && forall_str is_scheme_char pre
                        then post else url1
        | EmptyString => url1
        end
    | None => url1
    end in
  let netloc_rest :=
    if starts_with "//" url2 then span_until is_netloc_delim (drop 2 url2)
    else (EmptyString, url2) in
  let (netloc, url3) := netloc_rest in
  if xorb (contains "[" netloc) (contains "]" netloc) then None
  else
    let url4 := match split_once "#" url3 with
                | Some (pre, _) => pre
                | None => url3
                end in
    match split_once "?" url4 with
    | Some (_, query) => Some query
    | None => Some EmptyString
    end.

Definition hex_value (c : ascii) : option nat :=
  let n := nat_of_ascii c in
  if in_range 48 57 c then Some (n - 48)
  else if in_range 65 70 c then Some (n - 55)
  else if in_range 97 102 c then Some (n - 87)
  else None.

(** [urllib.parse.unquote] at the byte level: every [%XY] with two hex
    digits becomes the byte [XY]; any other ['%'] is kept. *)
Fixpoint unquote (s : string) : string :=
  match s with
  | EmptyString => EmptyString
  | String a t =>
      if Ascii.eqb a "%" then
        match t with
        | String x (String y rest) =>
            match hex_value x, hex_value y with
            | Some hx, Some hy => String (ascii_of_nat (16 * hx + hy)) (unquote rest)
            | _, _ => String "%" (unquote t)
            end
        | _ => String "%" (unquote t)
        end
      else String a (unquote t)
  end.

(** [s.replace('+', ' ')] followed by [unquote]. *)
Definition unquote_plus (s : string) : string :=
  unquote (String.concat "" (List.map (fun c => String c EmptyString)
             (List.map (fun c => if Ascii.eqb c "+" then " "%char else c)
                (list_ascii_of_string s)))).

(** [parse_qsl(qs)] with [keep_blank_values=False]: pairs without ['=']
    or with an empty value are dropped. *)
Definition parse_qsl (qs : string) : list (string * string) :=
  List.flat_map
    (fun name_value =>
       match split_once "=" name_value with
       | Some (name, value) =>
           if truthy value then [(unquote_plus name, unquote_plus value)] else []
       | None => []
       end)
    (split_char "&" qs).

(** [parse_qs(qs).get('v', [None])[0]]: the first value given to ["v"]. *)
Definition qs_first_v (qs : string) : option string :=
  match List.find (fun nv => String.eqb (fst nv) "v") (parse_qsl qs) with
  | Some (_, value) => Some value
  | None => None
  end.

(** The body of the [try] block on a string [url]. *)
Definition extract_from_string (url : string) : option string :=
  let general :=
    if contains "youtu.be" url then
      Some (hd EmptyString (split_char "?" (List.last (split_char "/" url) EmptyString)))
    else if contains "youtube.com" url then
      match urlparse_query url with
      | None => None              (* ValueError caught by [except Exception] *)
      | Some query => if truthy query then qs_first_v query else None
      end
    else None in
  if contains "shorts" url then
    match search_shorts url with
    | Some g => Some g
    | None => general
    end
  else general.

Definition extract_video_id (url : pyval) : option string :=
  if negb (py_truthy url) || negb (is_str url) then None
  else match url with
       | PyStr s => extract_from_string s
       | _ => None
       end.

(** A well-formed video identifier: non-empty, over [[a-zA-Z0-9_-]]. *)
Definition valid_id (s : string) : bool := truthy s && forall_str is_id_char s.

End Extract.

(* ------------------------------------------------------------------ *)
(** ** [load_api_keys], [get_video_title_async], [get_video_summary_async]
       (excel_summarizer.py, lines 74-190) *)

Module Summarizer.
Import PyStr.

(** Result of a Python call: a value, or an exception with its [str(e)]. *)
Inductive result (A : Type) : Type :=
| Ok (a : A)
| Exc (msg : string).
Arguments Ok {A} a.
Arguments Exc {A} msg.

(** The process environment as [os.getenv] sees it. *)
Record env := mkEnv { OPENAI_API_KEY : option string; YOUTUBE_API_KEY : option string }.

Definition key_present (v : option string) : bool :=
  match v with Some k => truthy k | None => false end.

(** [load_api_keys]: raises [ValueError] listing the missing keys. *)
Definition load_api_keys (e : env) : result (string * string) :=
  let missing :=
    app (if key_present (OPENAI_API_KEY e) then [] else ["openai"])
        (if key_present (YOUTUBE_API_KEY e) then [] else ["youtube"]) in
  match missing, OPENAI_API_KEY e, YOUTUBE_API_KEY e with
  | [], Some o, Some y => Ok (o, y)
  | _, _, _ => Exc ("다음 API 키가 설정되지 않았습니다: " ++ String.concat ", " missing)
  end.

(** One [session.get] on the YouTube videos endpoint: an exception (network
    error, bad JSON, ...) or a status with the first item's title, if any. *)
Inductive http_outcome : Type :=
| HttpExc (msg : string)
| HttpStatus (status : nat) (first_item_title : option string).

Definition max_retries : nat := 3.
Definition retry_delay : nat := 1.

Definition msg_no_title : string := "제목을 가져올 수 없습니다".
Definition msg_title_failed (e : string) : string := "제목 가져오기 실패: " ++ e.

(** The body of the [try] block of one attempt of [get_video_title_async]. *)
Definition title_attempt (e : env) (http : nat -> http_outcome) (attempt : nat)
  : result string :=
  match load_api_keys e with
  | Exc m => Exc m
  | Ok _ =>
      match http attempt with
      | HttpExc m => Exc m
      | HttpStatus 200 (Some t) => Ok t
      | HttpStatus _ _ => Ok msg_no_title
      end
  end.

(** [for attempt in range(max_retries)]; the result is the returned value
    ([None] if the loop ran out, which the last attempt never lets happen)
    and the number of [asyncio.sleep(retry_delay)] performed. *)
Fixpoint title_loop (e : env) (http : nat -> http_outcome) (attempts : list nat)
  (sleeps : nat) : option string * nat :=
  match attempts with
  | [] => (None, sleeps)
  | attempt :: rest =>
      match title_attempt e http attempt with
      | Ok t => (Some t, sleeps)
      | Exc m =>
          if Nat.ltb attempt (max_retries - 1)
          then title_loop e http rest (sleeps + 1)
          else (Some (msg_title_failed m), sleeps)
      end
  end.

Definition get_video_title (e : env) (http : nat -> http_outcome) : option string * nat :=
  title_loop e http (List.seq 0 max_retries) 0.

(** The durations of the sleeps of [get_video_title_async], in order: each
    one is [await asyncio.sleep(retry_delay)]. *)
Definition title_delays (e : env) (http : nat -> http_outcome) : list nat :=
  List.repeat retry_delay (snd (get_video_title e http)).

(** [YouTubeTranscriptApi.get_transcript(video_id, languages=[lang])]:
    the texts of the entries, or one of the exceptions the code tells apart. *)
Inductive transcript_result : Type :=
| TOk (texts : list string)
| TNoTranscriptFound
| TTranscriptsDisabled
| TOtherError (msg : string).

(** [client.chat.completions.create(...)]: the message content or an error. *)
Inductive completion_result : Type :=
| GOk (content : string)
| GErr (msg : string).

(** What the run did: the transcript languages requested, in order, the
    number of completion requests and the number of sleeps. *)
Record summary_trace := mkTrace
  { transcript_calls : list string; completion_calls : nat; summary_sleeps : nat }.

Definition msg_no_captions : string := "이 비디오에 대한 자막을 찾을 수 없습니다.".
Definition msg_disabled : string := "스크립트가 비활성화되어 있습니다.".
Definition msg_error (e : string) : string := "오류가 발생했습니다: " ++ e.

(** [get_video_summary_async]: [transcripts lang] answers the transcript
    request for [lang]; [completion n] answers the [n]-th completion request. *)
Definition get_video_summary (e : env) (transcripts : string -> transcript_result)
  (completion : nat -> completion_result) : (string * string) * summary_trace :=
  let summarize (texts : list string) (calls : list string) :=
    let full_text := String.concat " " texts in
    match load_api_keys e with
    | Exc m => (("", msg_error m), mkTrace calls 0 0)
    | Ok _ =>
        match completion 0 with
        | GOk content => ((full_text, content), mkTrace calls 1 0)
        | GErr m => (("", msg_error m), mkTrace calls 1 0)
        end
    end in
  let failed (r : transcript_result) (calls : list string) :=
    match r with
    | TTranscriptsDisabled => (("", msg_disabled), mkTrace calls 0 0)
    | TOtherError m => (("", msg_error m), mkTrace calls 0 0)
    | _ => (("", msg_no_captions), mkTrace calls 0 0)
    end in
  match transcripts "ko" with
  | TOk texts => summarize texts ["ko"]
  | TNoTranscriptFound =>
      match transcripts "en" with
      | TOk texts => summarize texts ["ko"; "en"]
      | r => failed r ["ko"; "en"]
      end
  | r => failed r ["ko"]
  end.

End Summarizer.

(* ------------------------------------------------------------------ *)
(** ** [YouTubeSummarizerGUI.process_excel_thread] (lines 631-704) *)

Module Batch.
Import PyStr Extract Summarizer.

(** The services as they answer while one row is processed. *)
Record services := mkServices
  { svc_env : env;
    svc_http : nat -> http_outcome;
    svc_transcripts : string -> transcript_result;
    svc_completion : nat -> completion_result }.

(** One entry of [results]: columns 제목, URL, 원본 자막, GPT 요약
    ([title] is Python's [None] only if the title loop ran out). *)
Record summary_record := mkRecord
  { title : option string; url : pyval; original_text : string; summary : string }.

Definition invalid_row (u : pyval) : summary_record :=
  mkRecord (Some "유효하지 않은 URL") u "" "유효하지 않은 YouTube URL입니다.".

(** The body of the loop for one row, after the cancellation check. *)
Definition process_row (sv : services) (u : pyval) : summary_record :=
  match extract_video_id u with
  | Some video_id =>
      if truthy video_id then
        let title := fst (get_video_title (svc_env sv) (svc_http sv)) in
        let '((original, summ), _) :=
          get_video_summary (svc_env sv) (svc_transcripts sv) (svc_completion sv) in
        mkRecord title u original summ
      else invalid_row u
  | None => invalid_row u
  end.

(** [for index, row in df.iterrows()]: [processing index] is the value of
    [self.processing] when row [index] is checked, [svc index] the services
    while it runs. [None]: the thread returned before saving anything;
    [Some results]: the table handed to [save_excel_with_formatting]. *)
Fixpoint excel_loop (processing : nat -> bool) (svc : nat -> services)
  (index : nat) (rows : list pyval) (results : list summary_record)
  : option (list summary_record) :=
  match rows with
  | [] => Some results
  | u :: rest =>
      if negb (processing index) then None
      else excel_loop processing svc (S index) rest
             (app results [process_row (svc index) u])
  end.

Definition process_excel_thread (processing : nat -> bool) (svc : nat -> services)
  (url_column : list pyval) : option (list summary_record) :=
  excel_loop processing svc 0 url_column [].

End Batch.

(* ------------------------------------------------------------------ *)
(** ** [fetch_youtube_data] (Youtube_search.py, lines 43-188) *)

Module Search.
Import PyStr.

(** The fields the code reads from [video_info['items'][0]]. *)
Record video_info := mkInfo
  { vi_title : string; vi_channel_title : string; vi_channel_id : string;
    vi_duration_seconds : nat; vi_views : nat; vi_comments : nat;
    vi_tags : list string; vi_thumbnail : string; vi_published : string }.

(** Answer of the detail request of one search hit. [DetailOk] carries a
    first item with the fields the code reads present and well formed (a
    malformed item would make the code raise out of [fetch_youtube_data]). *)
Inductive detail_outcome : Type :=
| DetailTransportError (msg : string)  (* [requests.exceptions.RequestException] *)
| DetailNoItems                        (* 2xx, but [items] missing or empty *)
| DetailOk (info : video_info).

(** A search hit: its [videoId] and what its detail request answers. *)
Record hit := mkHit { hit_video_id : string; hit_detail : detail_outcome }.

(** Answer of one search request. *)
Inductive page_response : Type :=
| PageTransportError (msg : string)
| PageOk (items : list hit) (nextPageToken : option string).

(** One dictionary appended to [video_details]. *)
Record video_record := mkVideo
  { Index : nat; Title : string; Channel_Title : string; Channel_ID : string;
    Duration : string; Views : nat; Comments : nat; URL : string;
    Thumbnail_URL : string; Tags : string; Published_Date : string }.

Definition make_record (index total_results_fetched : nat) (video_id : string)
  (d : video_info) : video_record :=
  mkVideo (index + total_results_fetched) (vi_title d) (vi_channel_title d)
    (vi_channel_id d) (Duration.format_duration (vi_duration_seconds d))
    (vi_views d) (vi_comments d) ("https://www.youtube.com/watch?v=" ++ video_id)
    (vi_thumbnail d) (String.concat ", " (vi_tags d)) (vi_published d).

(** [for index, item in enumerate(items, start=1)]: the records of one page. *)
Fixpoint enrich_page (total_results_fetched index : nat) (items : list hit)
  : list video_record :=
  match items with
  | [] => []
  | it :: rest =>
      let tail := enrich_page total_results_fetched (S index) rest in
      match hit_detail it with
      | DetailTransportError _ => tail                    (* continue *)
      | DetailNoItems => tail
      | DetailOk d => make_record index total_results_fetched (hit_video_id it) d :: tail
      end
  end.

Definition token_truthy (t : option string) : bool :=
  match t with Some s => truthy s | None => false end.

(** The loop's variables, plus two observations of the run: the number of
    search requests sent and the hits received so far. *)
Record search_state := mkState
  { video_details : list video_record; total_results_fetched : nat;
    requests : nat; seen_hits : list hit }.

(** The [while True] loop. [server n] is the answer to the [n]-th search
    request; [fuel] bounds the number of iterations observed. The boolean
    says whether the loop left by a [break]. *)
Fixpoint fetch_loop (fuel : nat) (server : nat -> page_response) (st : search_state)
  : search_state * bool :=
  match fuel with
  | O => (st, false)
  | S fuel' =>
      match server (requests st) with
      | PageTransportError _ =>
          (mkState (video_details st) (total_results_fetched st) (S (requests st))
             (seen_hits st), true)
      | PageOk items next_page_token =>
          let recs := enrich_page (total_results_fetched st) 1 items in
          let total := total_results_fetched st + length items in
          let st' := mkState (app (video_details st) recs) total (S (requests st))
                       (app (seen_hits st) items) in
          if negb (token_truthy next_page_token) || Nat.leb 200 total then (st', true)
          else fetch_loop fuel' server st'
      end
  end.

Definition fetch_youtube_data (fuel : nat) (server : nat -> page_response)
  : search_state * bool :=
  fetch_loop fuel server (mkState [] 0 0 []).

Definition is_detail_ok (h : hit) : bool :=
  match hit_detail h with DetailOk _ => true | _ => false end.
Definition is_transport_error (h : hit) : bool :=
  match hit_detail h with DetailTransportError _ => true | _ => false end.
Definition is_no_items (h : hit) : bool :=
  match hit_detail h with DetailNoItems => true | _ => false end.

End Search.

(* ------------------------------------------------------------------ *)
(** ** Sample environments and the loop invariant of the search run *)

Module Fixtures.
Import Summarizer Batch Search.

Definition keys_env : env := mkEnv (Some "sk-test") (Some "yt-test").

Definition no_services : services :=
  mkServices (Summarizer.mkEnv None None) (fun _ => Summarizer.HttpExc "no network")
    (fun _ => Summarizer.TNoTranscriptFound) (fun _ => Summarizer.GErr "no network").

Definition sample_info : video_info :=
  mkInfo "title" "channel" "UC0" 3723 10 1 ["a"; "b"] "https://i.ytimg.com/x.jpg" "2024-03-23".

Definition ok_hit : hit := mkHit "dQw4w9WgXcQ" (DetailOk sample_info).

(** The records accumulated so far are those of all hits seen so far,
    numbered consecutively from 1, and the counter counts these hits. *)
(** The number of hits of the answer to a search request. *)
Definition page_hits (r : page_response) : nat :=
  match r with PageOk items _ => length items | PageTransportError _ => 0 end.

(** The cumulative hit count of the first [n] search requests. *)
Fixpoint hits_before (server : nat -> page_response) (n : nat) : nat :=
  match n with
  | O => 0
  | S n' => hits_before server n' + page_hits (server n')
  end.

Definition run_inv (st : search_state) : Prop :=
  video_details st = enrich_page 0 1 (seen_hits st) /\
  total_results_fetched st = length (seen_hits st).

End Fixtures.

(* ------------------------------------------------------------------ *)
(** ** [str.strip] (used on every GUI input) *)

Module PyStrip.
Import PyStr.

(** [str.isspace] on one character: tab, line feed, vertical tab, form
    feed, carriage return, the separators [\x1c]-[\x1f] and the space
    (the non-ASCII white space of Python's [str] is not modelled). *)
Definition is_space (c : ascii) : bool := in_range 9 13 c || in_range 28 32 c.

Fixpoint rev_str (s : string) : string :=
  match s with
  | EmptyString => EmptyString
  | String a s' => rev_str s' ++ String a EmptyString
  end.

Definition rstrip (f : ascii -> bool) (s : string) : string :=
  rev_str (lstrip f (rev_str s)).

(** [s.strip()] *)
Definition strip (s : string) : string := rstrip is_space (lstrip is_space s).

End PyStrip.

(* ------------------------------------------------------------------ *)
(** ** [open_file] (excel_summarizer.py, lines 244-268) *)

Module OpenFile.
Import Summarizer.

Definition max_retries : nat := 3.
Definition retry_delay : nat := 1.

(** [for attempt in range(max_retries)]: [launch attempt] is what the
    platform's opener call does at that attempt ([os.startfile] on Windows,
    [subprocess.run(['open' | 'xdg-open', filepath])] elsewhere, which raises
    only when the opener cannot be started). The result is the returned
    value ([None] if the loop ran out, which the last attempt never lets
    happen) and the number of [time.sleep(retry_delay)] performed. *)
Fixpoint open_loop (launch : nat -> result unit) (attempts : list nat) (sleeps : nat)
  : option bool * nat :=
  match attempts with
  | [] => (None, sleeps)
  | attempt :: rest =>
      match launch attempt with
      | Ok _ => (Some true, sleeps)
      | Exc _ =>
          if Nat.ltb attempt (max_retries - 1)
          then open_loop launch rest (sleeps + 1)
          else (Some false, sleeps)
      end
  end.

Definition open_file (launch : nat -> result unit) : option bool * nat :=
  open_loop launch (List.seq 0 max_retries) 0.

End OpenFile.

(* ------------------------------------------------------------------ *)
(** ** [save_excel_with_formatting] (excel_summarizer.py, lines 192-241) and
       openpyxl's [get_column_letter] *)

Module Formatting.
Import PyStr Summarizer.

(** openpyxl's [_get_column_letter]: the [while col_idx > 0] loop, with
    the letters in the order they are appended. [fuel] bounds the number of
    iterations; [col_idx] iterations always suffice, as [col_idx] decreases
    at each of them. *)
Fixpoint column_letters (fuel col_idx : nat) (letters : list ascii) : list ascii :=
  match fuel with
  | O => letters
  | S fuel' =>
      if Nat.ltb 0 col_idx then
        let '(q, r) :=
          if Nat.eqb (col_idx mod 26) 0 then (col_idx / 26 - 1, 26)
          else (col_idx / 26, col_idx mod 26) in
        column_letters fuel' q (app letters [ascii_of_nat (r + 64)])
      else letters
  end.

(** [get_column_letter(idx)]: the value cached for [1 <= idx <= 18278],
    [ValueError] for any other index. *)
Definition get_column_letter (idx : nat) : result string :=
  if Nat.leb 1 idx && Nat.leb idx 18278
  then Ok (string_of_list_ascii (List.rev (column_letters idx idx [])))
  else Exc ("Invalid column index " ++ Duration.py_str_nat idx).

(** [Alignment(...)]: an unset [wrap_text] ([None]) is written [false]. *)
Record alignment := mkAlign
  { horizontal : option string; vertical : option string; wrap_text : bool }.

Inductive format_action : Type :=
| SetWidth (column_letter : string) (width : nat)
| SetAlignment (cell : string) (a : alignment).

(** [column_widths.get(col, 30)] *)
Definition column_widths : list (string * nat) :=
  [("제목", 40); ("URL", 30); ("원본 자막", 60); ("GPT 요약", 60)].

Definition width_of (col : string) : nat :=
  match List.find (fun kv => String.eqb (fst kv) col) column_widths with
  | Some (_, w) => w
  | None => 30
  end.

(** [col in ['원본 자막', 'GPT 요약']] *)
Definition wrapped_column (col : string) : bool :=
  List.existsb (String.eqb col) ["원본 자막"; "GPT 요약"].

Definition header_alignment : alignment := mkAlign (Some "center") (Some "center") true.
Definition data_alignment (col : string) : alignment :=
  if wrapped_column col then mkAlign None (Some "top") true
  else mkAlign None (Some "top") false.

(** The formatting of one column: its width, its header cell and the data
    cells of [for row in range(2, len(df) + 2)]. *)
Definition column_actions (column_letter col : string) (nrows : nat) : list format_action :=
  SetWidth column_letter (width_of col)
  :: SetAlignment (column_letter ++ "1") header_alignment
  :: List.map (fun row => SetAlignment (column_letter ++ Duration.py_str_nat row)
                                        (data_alignment col))
              (List.seq 2 nrows).

(** [for idx, col in enumerate(df.columns, 1)] *)
Fixpoint format_columns (idx : nat) (columns : list string) (nrows : nat)
  : result (list format_action) :=
  match columns with
  | [] => Ok []
  | col :: rest =>
      match get_column_letter idx with
      | Exc m => Exc m
      | Ok column_letter =>
          match format_columns (S idx) rest nrows with
          | Exc m => Exc m
          | Ok acts => Ok (app (column_actions column_letter col nrows) acts)
          end
      end
  end.

Definition msg_save_failed (e : string) : string := "엑셀 파일 저장 중 오류 발생: " ++ e.

(** [save_excel_with_formatting(df, output_file)] for a frame with the
    given columns and [nrows] rows. [io] is what the file operations
    ([df.to_excel], [load_workbook], [wb.save]) do; any exception is
    re-raised with the prefix "엑셀 파일 저장 중 오류 발생: ". *)
Definition save_excel_with_formatting (io : result unit) (columns : list string) (nrows : nat)
  : result (list format_action) :=
  match io with
  | Exc m => Exc (msg_save_failed m)
  | Ok _ =>
      match format_columns 1 columns nrows with
      | Ok acts => Ok acts
      | Exc m => Exc (msg_save_failed m)
      end
  end.

(** The cells an action list gives an alignment to, in order. *)
Definition aligned_cells (acts : list format_action) : list string :=
  List.flat_map (fun a => match a with SetAlignment c _ => [c] | SetWidth _ _ => [] end) acts.

(** The number a list of column letters stands for, least significant
    letter first ([A] = 1, ..., [Z] = 26): the reading the proofs use. *)
Fixpoint letters_value (letters : list ascii) : nat :=
  match letters with
  | [] => 0
  | c :: rest => (nat_of_ascii c - 64) + 26 * letters_value rest
  end.

Definition is_upper (c : ascii) : bool := in_range 65 90 c.

(** The columns of the result table built from the summary records. *)
Definition summary_columns : list string := ["제목"; "URL"; "원본 자막"; "GPT 요약"].

End Formatting.

(* ------------------------------------------------------------------ *)
(** ** [os.path.splitext] (the [genericpath._splitext] algorithm) *)

Module PyPath.
Import PyStr.

(** The index of the last character satisfying [f] ([str.rfind]). *)
Fixpoint rfind_from (f : ascii -> bool) (s : string) (i : nat) (found : option nat)
  : option nat :=
  match s with
  | EmptyString => found
  | String a s' => rfind_from f s' (S i) (if f a then Some i else found)
  end.

Definition rfind (f : ascii -> bool) (s : string) : option nat := rfind_from f s 0 None.

(** [_splitext(p, sep, altsep, '.')]; [is_sep] tells the separators
    (['/'] for [posixpath]; ['\\'] and ['/'] for [ntpath]). *)
Definition splitext (is_sep : ascii -> bool) (p : string) : string * string :=
  match rfind (fun c => Ascii.eqb c ".") p with
  | None => (p, EmptyString)
  | Some dotIndex =>
      let filenameIndex :=
        match rfind is_sep p with
        | Some sepIndex => if Nat.ltb sepIndex dotIndex then Some (S sepIndex) else None
        | None => Some 0
        end in
      match filenameIndex with
      | None => (p, EmptyString)
      | Some i =>
          if negb (forall_str (fun c => Ascii.eqb c ".")
                     (substring i (dotIndex - i) p))
          then (substring 0 dotIndex p, substring dotIndex (String.length p - dotIndex) p)
          else (p, EmptyString)
      end
  end.

(** The shape of an extension: empty, or a dot followed by characters
    that are neither dots nor separators. *)
Definition ext_shape (is_sep : ascii -> bool) (ext : string) : Prop :=
  ext = EmptyString \/
  exists rest, ext = String "." rest /\
    forall_str (fun c => negb (is_sep c) && negb (Ascii.eqb c ".")) rest = true.

Definition is_posix_sep (c : ascii) : bool := Ascii.eqb c "/".
Definition is_nt_sep (c : ascii) : bool := Ascii.eqb c "\" || Ascii.eqb c "/".

End PyPath.

(* ------------------------------------------------------------------ *)
(** ** The summarizer window: [start_processing], [stop_processing],
       [process_single_url], [select_input_file]
       (excel_summarizer.py, lines 402-606) *)

Module Gui.
Import PyStr PyStrip Extract Summarizer Batch Formatting PyPath.

Inductive mode : Type := ExcelMode | UrlMode.

(** The thread [start_processing] starts, with its arguments. *)
Inductive job : Type :=
| ExcelJob (input_file output_file : string)
| UrlJob (url : string).

(** The window's state: the [processing] flag and the text variables. *)
Record gui := mkGui
  { processing : bool; input_path_var : string; output_path_var : string;
    url_var : string; url_output_var : string }.

Definition set_processing (b : bool) (g : gui) : gui :=
  mkGui b (input_path_var g) (output_path_var g) (url_var g) (url_output_var g).

Inductive start_event : Type :=
| Ignored
| ErrorDialog (title message : string)
| WorkerStarted (j : job).

(** [start_processing(mode)]: the state afterwards and what it did. *)
Definition start_processing (e : env) (m : mode) (g : gui) : gui * start_event :=
  if processing g then (g, Ignored)
  else
    match load_api_keys e with
    | Exc msg => (g, ErrorDialog "API 키 오류" msg)
    | Ok _ =>
        match m with
        | ExcelMode =>
            let input_file := input_path_var g in
            let output_file := output_path_var g in
            if negb (truthy input_file) || negb (truthy output_file)
            then (g, ErrorDialog "오류" "입력 파일과 출력 파일을 모두 선택해주세요.")
            else (set_processing true g, WorkerStarted (ExcelJob input_file output_file))
        | UrlMode =>
            let url := strip (url_var g) in
            if negb (truthy url)
            then (g, ErrorDialog "오류" "YouTube URL을 입력해주세요.")
            else (set_processing true g, WorkerStarted (UrlJob url))
        end
    end.

(** [stop_processing()] *)
Definition stop_processing (g : gui) : gui :=
  if processing g then set_processing false g else g.

Definition nl : string := String (ascii_of_nat 10) EmptyString.

(** [f"{title}"]: [str(None)] is ["None"]. *)
Definition py_str_title (t : option string) : string :=
  match t with Some s => s | None => "None" end.

Definition msg_invalid_url : string := "유효하지 않은 YouTube URL입니다.".
Definition msg_processing_failed (e : string) : string := "처리 중 오류가 발생했습니다: " ++ e.

Definition result_text (title : option string) (url original_text summary : string) : string :=
  "제목: " ++ py_str_title title ++ nl ++ nl ++
  "URL: " ++ url ++ nl ++ nl ++
  "원본 자막:" ++ nl ++ original_text ++ nl ++ nl ++
  "GPT 요약:" ++ nl ++ summary ++ nl.

(** [process_single_url(url)]: the returned text, the window's state
    afterwards, and the file and one-row table handed to
    [save_excel_with_formatting] (if it is reached). [timestamp] is
    [datetime.now().strftime("%Y%m%d_%H%M%S")]; [io] what the file
    operations of the save do. *)
Definition process_single_url (sv : services) (timestamp : string) (io : result unit)
  (g : gui) (url : string)
  : string * gui * option (string * list summary_record) :=
  match extract_video_id (PyStr url) with
  | Some video_id =>
      if truthy video_id then
        let title := fst (get_video_title (svc_env sv) (svc_http sv)) in
        let '((original_text, summary), _) :=
          get_video_summary (svc_env sv) (svc_transcripts sv) (svc_completion sv) in
        let result := result_text title url original_text summary in
        let output_file :=
          if truthy (url_output_var g) then url_output_var g
          else "youtube_summary_" ++ timestamp ++ ".xlsx" in
        let g' := mkGui (processing g) (input_path_var g) (output_path_var g)
                    (url_var g) output_file in
        let df := [mkRecord title (PyStr url) original_text summary] in
        match save_excel_with_formatting io summary_columns (length df) with
        | Ok _ => (result, g', Some (output_file, df))
        | Exc m => (msg_processing_failed m, g', Some (output_file, df))
        end
      else (msg_invalid_url, g, None)
  | None => (msg_invalid_url, g, None)
  end.

(** [select_input_file()] after the dialog returned [filename] ([""] when
    cancelled); [timestamp] as in [process_single_url]. *)
Definition select_input_file (is_sep : ascii -> bool) (filename timestamp : string) (g : gui)
  : gui :=
  if truthy filename then
    let output :=
      if negb (truthy (output_path_var g))
      then fst (splitext is_sep filename) ++ "_요약결과_" ++ timestamp ++ ".xlsx"
      else output_path_var g in
    mkGui (processing g) filename output (url_var g) (url_output_var g)
  else g.

End Gui.

(* ------------------------------------------------------------------ *)
(** ** [datetime.strptime(s, "%Y-%m-%d")] and the search window's
       [on_run_button_click] (Youtube_search.py, lines 62-92 and 218-341) *)

Module Dates.
Import PyStr.

Definition digit (c : ascii) : option nat :=
  if is_digit c then Some (nat_of_ascii c - 48) else None.

(** One alternative of a group of [_strptime]'s regular expression: the
    value of the field and the text after it. *)
Definition re_alt : Type := string -> option (nat * string).

Definition char_in (lo hi : nat) (s : string) : option (nat * string) :=
  match s with
  | String a r => if in_range lo hi a then Some (nat_of_ascii a - 48, r) else None
  | EmptyString => None
  end.

Definition lit (c : ascii) (s : string) : option string :=
  match s with
  | String a r => if Ascii.eqb a c then Some r else None
  | EmptyString => None
  end.

(** A fixed first character followed by a digit in [lo..hi]. *)
Definition two_chars (c : ascii) (tens lo hi : nat) (s : string) : option (nat * string) :=
  match lit c s with
  | Some r => match char_in lo hi r with
              | Some (u, r') => Some (tens + u, r')
              | None => None
              end
  | None => None
  end.

(** [(?P<m>1[0-2]|0[1-9]|[1-9])] *)
Definition month_alts : list re_alt :=
  [two_chars "1" 10 48 50; two_chars "0" 0 49 57; char_in 49 57].

(** [(?P<d>3[01]|[12]\d|0[1-9]|[1-9]| [1-9])] *)
Definition day_alts : list re_alt :=
  [two_chars "3" 30 48 49; two_chars "1" 10 48 57; two_chars "2" 20 48 57;
   two_chars "0" 0 49 57; char_in 49 57; two_chars " " 0 49 57].

(** Alternation with backtracking: the first alternative whose
    continuation [k] matches. *)
Fixpoint first_match {A : Type} (alts : list re_alt) (k : nat -> string -> option A)
  (s : string) : option A :=
  match alts with
  | [] => None
  | alt :: rest =>
      match alt s with
      | Some (v, r) =>
          match k v r with
          | Some a => Some a
          | None => first_match rest k s
          end
      | None => first_match rest k s
      end
  end.

(** [(?P<Y>\d\d\d\d)] *)
Definition year_re (s : string) : option (nat * string) :=
  match s with
  | String a (String b (String c (String d r))) =>
      match digit a, digit b, digit c, digit d with
      | Some a', Some b', Some c', Some d' => Some (1000 * a' + 100 * b' + 10 * c' + d', r)
      | _, _, _, _ => None
      end
  | _ => None
  end.

(** [format_regex.match(data_string)] for ["%Y-%m-%d"]: the fields and
    the unmatched rest of the string. *)
Definition format_regex_match (s : string) : option (nat * nat * nat * string) :=
  match year_re s with
  | Some (y, r) =>
      match lit "-" r with
      | Some r1 =>
          first_match month_alts
            (fun m r2 => match lit "-" r2 with
                         | Some r3 => first_match day_alts (fun d r4 => Some (y, m, d, r4)) r3
                         | None => None
                         end) r1
      | None => None
      end
  | None => None
  end.

Definition is_leap (y : nat) : bool :=
  Nat.eqb (y mod 4) 0 && (negb (Nat.eqb (y mod 100) 0) || Nat.eqb (y mod 400) 0).

Definition days_in_month (y m : nat) : nat :=
  match m with
  | 1 | 3 | 5 | 7 | 8 | 10 | 12 => 31
  | 4 | 6 | 9 | 11 => 30
  | 2 => if is_leap y then 29 else 28
  | _ => 0
  end.

(** The range checks of [datetime.date(year, month, day)]. *)
Definition valid_date (y m d : nat) : bool :=
  Nat.leb 1 y && Nat.leb y 9999 && Nat.leb 1 m && Nat.leb m 12 &&
  Nat.leb 1 d && Nat.leb d (days_in_month y m).

(** [datetime.strptime(s, "%Y-%m-%d")]: [None] for every [ValueError]
    (no match, "unconverted data remains", a day out of range, year 0).
    Only ASCII digits are digits here; Python's [\d] also accepts the other
    Unicode decimal digits. *)
Definition strptime_ymd (s : string) : option (nat * nat * nat) :=
  match format_regex_match s with
  | Some (y, m, d, EmptyString) => if valid_date y m d then Some (y, m, d) else None
  | _ => None
  end.

(** [strftime("%Y-%m-%d")], the year zero-padded to four digits. *)
Definition pad4 (n : nat) : string :=
  let s := Duration.py_str_nat n in Duration.zeros (4 - String.length s) ++ s.

Definition ymd_string (y m d : nat) : string :=
  pad4 y ++ "-" ++ Duration.fmt02 m ++ "-" ++ Duration.fmt02 d.

End Dates.

Module SearchGui.
Import PyStr PyStrip Search Dates.

Definition msg_bad_start : string := "[경고] 시작 날짜 형식이 올바르지 않습니다(YYYY-MM-DD): ".
Definition msg_bad_end : string := "[경고] 종료 날짜 형식이 올바르지 않습니다(YYYY-MM-DD): ".

(** [if start_date: try ... except ValueError: log_callback(...)] *)
Definition date_filter (date : option string) (param time_suffix warning : string)
  (url : string) : string * list string :=
  match date with
  | Some s =>
      if truthy s then
        match strptime_ymd s with
        | Some (y, m, d) => (url ++ "&" ++ param ++ "=" ++ ymd_string y m d ++ time_suffix, [])
        | None => (url, [warning ++ s])
        end
      else (url, [])
  | None => (url, [])
  end.

(** [base_search_url] as [fetch_youtube_data] builds it, with the warnings
    it logs on the way. *)
Definition search_base_url (api_key search_query channel_id : string)
  (start_date end_date : option string) : string * list string :=
  let u0 := "https://www.googleapis.com/youtube/v3/search?key=" ++ api_key ++
            "&part=snippet&maxResults=50&type=video&order=date" in
  let u1 := if truthy search_query then u0 ++ "&q=" ++ search_query else u0 in
  let u2 := if truthy channel_id then u1 ++ "&channelId=" ++ channel_id else u1 in
  let '(u3, w1) := date_filter start_date "publishedAfter" "T00:00:00Z" msg_bad_start u2 in
  let '(u4, w2) := date_filter end_date "publishedBefore" "T23:59:59Z" msg_bad_end u3 in
  (u4, app w1 w2).

(** [value or None] *)
Definition or_none (s : string) : option string := if truthy s then Some s else None.

(** The date check of [on_run_button_click]: the label of the first
    non-empty value that [strptime] refuses. *)
Fixpoint first_bad_date (fields : list (string * string)) : option string :=
  match fields with
  | [] => None
  | (label, value) :: rest =>
      if truthy value then
        match strptime_ymd value with
        | Some _ => first_bad_date rest
        | None => Some label
        end
      else first_bad_date rest
  end.

Inductive save_outcome : Type :=
| NoResults                                           (* nothing written *)
| SavedTo (file_path : string) (rows : list video_record)
| SaveFailed (file_path : string) (msg : string).      (* [to_excel] raised *)

Inductive run_outcome : Type :=
| EnvKeyError
| InputError
| DateFormatError (label : string)
| Searched (search_url : string) (warnings : list string) (saved : save_outcome).

(** [on_run_button_click()]: [env_key] is [os.getenv("YOUTUBE_API_KEY")],
    the five strings the entry fields hold, [today] the
    [strftime("%Y-%m-%d")] of the day; [fuel] and [server] as for
    [fetch_youtube_data]; [write path rows] what [df.to_excel] does. The
    automatic opening of the file only logs its failures and is left out. *)
Definition on_run_button_click (env_key : option string)
  (entry_search_query entry_channel_id entry_start_date entry_end_date entry_file_name : string)
  (today : string) (fuel : nat) (server : nat -> page_response)
  (write : string -> list video_record -> Summarizer.result unit) : run_outcome :=
  let api_key := strip (match env_key with Some k => k | None => "" end) in
  let search_query := strip entry_search_query in
  let channel_id := strip entry_channel_id in
  let start_date_str := strip entry_start_date in
  let end_date_str := strip entry_end_date in
  let file_name := strip entry_file_name in
  if negb (truthy api_key) then EnvKeyError
  else if negb (truthy search_query) && negb (truthy channel_id) then InputError
  else
    match first_bad_date [("시작 날짜", start_date_str); ("종료 날짜", end_date_str)] with
    | Some label => DateFormatError label
    | None =>
        let file_name := if truthy file_name then file_name else "youtube_results" in
        let '(url, warnings) :=
          search_base_url api_key search_query channel_id
            (or_none start_date_str) (or_none end_date_str) in
        let videos := video_details (fst (fetch_youtube_data fuel server)) in
        match videos with
        | [] => Searched url warnings NoResults
        | _ =>
            let file_path := file_name ++ "_" ++ today ++ ".xlsx" in
            match write file_path videos with
            | Summarizer.Ok _ => Searched url warnings (SavedTo file_path videos)
            | Summarizer.Exc m => Searched url warnings (SaveFailed file_path m)
            end
        end
    end.

End SearchGui.

(* ------------------------------------------------------------------ *)
(** ** Proofs *)

Module DurationFacts.
Import Duration.

Lemma to_uint_not_nil (n : nat) : Nat.to_uint n <> Decimal.Nil.
Proof.
  intro H. pose proof (Unsigned.of_to n) as E. rewrite H in E.
  simpl in E. subst n. discriminate H.
Qed.

Lemma py_str_nat_uint (n : nat) :
  NilEmpty.uint_of_string (py_str_nat n) = Some (Nat.to_uint n).
Proof.
  unfold py_str_nat. pose proof (to_uint_not_nil n) as Hn.
  destruct (Nat.to_uint n) eqn:E; [contradiction | ..];
    apply NilEmpty.usu.
Qed.

Lemma py_str_nat_nonempty (n : nat) : py_str_nat n <> EmptyString.
Proof.
  intro H. pose proof (py_str_nat_uint n) as U. rewrite H in U.
  simpl in U. inversion U as [U']. symmetry in U'.
  exact (to_uint_not_nil n U').
Qed.

Lemma zeros_uint (k : nat) (s : string) (d : Decimal.uint) :
  NilEmpty.uint_of_string s = Some d ->
  exists d', NilEmpty.uint_of_string (zeros k ++ s) = Some d' /\
             Nat.of_uint d' = Nat.of_uint d.
Proof.
  intros Hs. induction k as [|k IH]; simpl.
  - exists d. auto.
  - destruct IH as [d' [H1 H2]]. rewrite H1. exists (Decimal.D0 d').
    split; [reflexivity|]. rewrite <- H2. reflexivity.
Qed.

(** A zero-padded field reads back as the number it renders. *)
Lemma padded_value (k n : nat) :
  digits_value (zeros k ++ py_str_nat n) = Some n.
Proof.
  destruct (zeros_uint k (py_str_nat n) (Nat.to_uint n) (py_str_nat_uint n))
    as [d' [H1 H2]].
  assert (NE : zeros k ++ py_str_nat n <> EmptyString).
  { destruct k; simpl; [apply py_str_nat_nonempty | discriminate]. }
  unfold digits_value.
  assert (Z : NilZero.uint_of_string (zeros k ++ py_str_nat n)
              = NilEmpty.uint_of_string (zeros k ++ py_str_nat n)).
  { destruct (zeros k ++ py_str_nat n); [contradiction | reflexivity]. }
  rewrite Z, H1. simpl. rewrite H2. f_equal. apply Unsigned.of_to.
Qed.

Lemma fmt02_value (n : nat) : digits_value (fmt02 n) = Some n.
Proof. apply padded_value. Qed.

Lemma length_zeros (k : nat) : String.length (zeros k) = k.
Proof. induction k; simpl; auto. Qed.

Lemma length_append (s t : string) :
  String.length (s ++ t) = String.length s + String.length t.
Proof. induction s; simpl; auto. Qed.

Lemma fmt02_length_ge (n : nat) : 2 <= String.length (fmt02 n).
Proof.
  unfold fmt02. rewrite length_append, length_zeros. lia.
Qed.

Lemma fmt02_length_small (n : nat) : n < 60 -> String.length (fmt02 n) = 2.
Proof.
  intro H.
  do 60 (destruct n as [|n]; [reflexivity|]).
  lia.
Qed.

End DurationFacts.

Module DurationClaims.
Import Duration DurationFacts.

(** C9: [format_duration] is total on every non-negative duration: it
    yields [HH:MM:SS] where minutes and seconds are two zero-padded digits
    and the hours field has at least two digits and holds the full number of
    hours (no wrap-around at 24 or 100); all three fields read back to the
    decomposition of the input. In particular 0 s gives "00:00:00" and
    3723 s gives "01:02:03". *)
Theorem format_duration_total_hhmmss :
  (forall secs : nat,
     exists hh mm ss,
       format_duration secs = hh ++ ":" ++ mm ++ ":" ++ ss /\
       2 <= String.length hh /\ String.length mm = 2 /\ String.length ss = 2 /\
       digits_value hh = Some (secs / 3600) /\
       digits_value mm = Some ((secs mod 3600) / 60) /\
       digits_value ss = Some (secs mod 60) /\
       (secs / 3600) * 3600 + ((secs mod 3600) / 60) * 60 + secs mod 60 = secs)
  /\ format_duration 0 = "00:00:00"
  /\ format_duration 3723 = "01:02:03".
Proof.
  split; [|split; reflexivity].
  intro secs.
  exists (fmt02 (secs / 3600)), (fmt02 ((secs mod 3600) / 60)),
         (fmt02 ((secs mod 3600) mod 60)).
  assert (Hmod : (secs mod 3600) mod 60 = secs mod 60).
  { assert (E : secs = secs mod 3600 + (secs / 3600 * 60) * 60).
    { pose proof (Nat.div_mod secs 3600 ltac:(lia)). lia. }
    rewrite E at 2. rewrite Nat.Div0.mod_add. reflexivity. }
  repeat split.
  - apply fmt02_length_ge.
  - apply fmt02_length_small. apply Nat.Div0.div_lt_upper_bound.
    pose proof (Nat.mod_upper_bound secs 3600). lia.
  - apply fmt02_length_small. apply Nat.mod_upper_bound. lia.
  - apply fmt02_value.
  - apply fmt02_value.
  - rewrite fmt02_value, Hmod. reflexivity.
  - pose proof (Nat.div_mod secs 3600 ltac:(lia)) as E1.
    pose proof (Nat.div_mod (secs mod 3600) 60 ltac:(lia)) as E2.
    rewrite <- Hmod. lia.
Qed.

End DurationClaims.

Module ExtractFacts.
Import PyStr Extract.

Section IdString.
Variable s : string.
Hypothesis Hs : forall_str is_id_char s = true.

Lemma starts_with_id_chars (n : string) :
  forall t, forall_str is_id_char t = true ->
  starts_with n t = true -> forall_str is_id_char n = true.
Proof.
  induction n as [|a n IH]; intros t Ht H; [reflexivity|].
  destruct t as [|b t]; [discriminate|].
  simpl in H, Ht |- *. apply andb_prop in H as [Hab H].
  apply andb_prop in Ht as [Hb Ht].
  apply Ascii.eqb_eq in Hab. subst b. rewrite Hb. simpl. eauto.
Qed.

Lemma contains_id_false (n : string) :
  forall_str is_id_char n = false -> contains n s = false.
Proof.
  intros Hn. induction s as [|a t IH]; simpl.
  - destruct n; [discriminate|reflexivity].
  - simpl in Hs. apply andb_prop in Hs as [Ha Ht].
    rewrite (IH Ht), orb_false_r.
    destruct (starts_with n (String a t)) eqn:E; [|reflexivity].
    rewrite (starts_with_id_chars n (String a t)) in Hn; auto.
    simpl. rewrite Ha. exact Ht.
Qed.

Lemma search_shorts_id : search_shorts s = None.
Proof.
  induction s as [|a t IH]; [reflexivity|].
  simpl in Hs. apply andb_prop in Hs as [Ha Ht].
  change (search_shorts (String a t)) with
    (if starts_with "shorts/" (String a t) then
       match take_while is_id_char (drop 7 (String a t)) with
       | EmptyString => search_shorts t
       | g => Some g
       end
     else search_shorts t).
  destruct (starts_with "shorts/" (String a t)) eqn:E.
  - apply starts_with_id_chars in E; [discriminate|]. simpl. rewrite Ha. exact Ht.
  - apply IH. exact Ht.
Qed.

Lemma take_while_id : take_while is_id_char s = s.
Proof.
  induction s as [|a t IH]; [reflexivity|].
  simpl in Hs |- *. apply andb_prop in Hs as [Ha Ht]. rewrite Ha, IH; auto.
Qed.

Lemma split_char_id (c : ascii) : is_id_char c = false -> split_char c s = [s].
Proof.
  intros Hc. induction s as [|a t IH]; [reflexivity|].
  simpl in Hs |- *. apply andb_prop in Hs as [Ha Ht]. rewrite (IH Ht).
  destruct (Ascii.eqb a c) eqn:E; [|reflexivity].
  apply Ascii.eqb_eq in E. subst. congruence.
Qed.

Lemma split_once_id (c : ascii) : is_id_char c = false -> split_once c s = None.
Proof.
  intros Hc. induction s as [|a t IH]; [reflexivity|].
  simpl in Hs |- *. apply andb_prop in Hs as [Ha Ht]. rewrite (IH Ht).
  destruct (Ascii.eqb a c) eqn:E; [|reflexivity].
  apply Ascii.eqb_eq in E. subst. congruence.
Qed.

Lemma filter_unsafe_id :
  filter_str (fun c => negb (is_unsafe_byte c)) s = s.
Proof.
  induction s as [|a t IH]; [reflexivity|].
  simpl in Hs |- *. apply andb_prop in Hs as [Ha Ht]. rewrite (IH Ht).
  destruct (is_unsafe_byte a) eqn:E; [|reflexivity].
  exfalso. unfold is_unsafe_byte in E.
  repeat (apply orb_prop in E as [E|E]); apply Ascii.eqb_eq in E; subst a;
    discriminate Ha.
Qed.

Lemma unquote_id : unquote s = s.
Proof.
  induction s as [|a t IH]; [reflexivity|].
  simpl in Hs |- *. apply andb_prop in Hs as [Ha Ht]. rewrite (IH Ht).
  destruct (Ascii.eqb a "%") eqn:E; [|reflexivity].
  apply Ascii.eqb_eq in E. subst a. discriminate Ha.
Qed.

Lemma unquote_plus_id : unquote_plus s = s.
Proof.
  unfold unquote_plus.
  replace (String.concat "" _) with s; [apply unquote_id|].
  clear -Hs. induction s as [|a t IH]; [reflexivity|].
  simpl in Hs |- *. apply andb_prop in Hs as [Ha Ht].
  destruct (Ascii.eqb a "+") eqn:E.
  - apply Ascii.eqb_eq in E. subst a. discriminate Ha.
  - rewrite (IH Ht) at 1. destruct t; reflexivity.
Qed.

End IdString.

Lemma starts_with_app (p q t : string) :
  starts_with (p ++ q) t = true -> starts_with p t = true.
Proof.
  revert t. induction p as [|a p IH]; intros t H; [reflexivity|].
  destruct t as [|b t]; [discriminate|]. simpl in H |- *.
  apply andb_prop in H as [H1 H2]. rewrite H1. simpl. eauto.
Qed.

Lemma search_shorts_contains (url g : string) :
  search_shorts url = Some g -> contains "shorts" url = true.
Proof.
  induction url as [|a t IH]; [discriminate|]. intros H.
  change (search_shorts (String a t)) with
    (if starts_with "shorts/" (String a t) then
       match take_while is_id_char (drop 7 (String a t)) with
       | EmptyString => search_shorts t
       | g => Some g
       end
     else search_shorts t) in H.
  change (contains "shorts" (String a t))
    with (starts_with "shorts" (String a t) || contains "shorts" t).
  destruct (starts_with "shorts/" (String a t)) eqn:E.
  - apply (starts_with_app "shorts" "/") in E. rewrite E. reflexivity.
  - rewrite IH; [apply orb_true_r | exact H].
Qed.

Lemma contains_truthy (n url : string) :
  truthy n = true -> contains n url = true -> truthy url = true.
Proof.
  intros Hn H. destruct url; [|reflexivity]. destruct n; discriminate.
Qed.

Lemma if_same {A : Type} (b : bool) (x : A) : (if b then x else x) = x.
Proof. destruct b; reflexivity. Qed.

Lemma extract_canonical (id : string) :
  valid_id id = true ->
  extract_from_string ("https://www.youtube.com/watch?v=" ++ id) = Some id.
Proof.
  intros Hv. apply andb_prop in Hv as [Hne Hs].
  unfold extract_from_string. simpl.
  rewrite (search_shorts_id id Hs), (contains_id_false id Hs "youtu.be" eq_refl).
  rewrite if_same. unfold urlparse_query. simpl.
  rewrite (filter_unsafe_id id Hs). simpl.
  rewrite (split_once_id id Hs "#" eq_refl). simpl.
  unfold qs_first_v, parse_qsl. simpl.
  rewrite (split_char_id id Hs "&" eq_refl). simpl. rewrite Hne.
  rewrite (unquote_plus_id id Hs). reflexivity.
Qed.

Lemma extract_short_link (id : string) :
  valid_id id = true ->
  extract_from_string ("https://youtu.be/" ++ id) = Some id.
Proof.
  intros Hv. apply andb_prop in Hv as [Hne Hs].
  unfold extract_from_string. simpl.
  rewrite (search_shorts_id id Hs), (split_char_id id Hs "/" eq_refl). simpl.
  rewrite (split_char_id id Hs "?" eq_refl). simpl.
  apply if_same.
Qed.

Lemma extract_shorts (id : string) :
  valid_id id = true ->
  extract_from_string ("https://youtube.com/shorts/" ++ id) = Some id.
Proof.
  intros Hv. apply andb_prop in Hv as [Hne Hs].
  unfold extract_from_string. simpl.
  rewrite (take_while_id id Hs). destruct id; [discriminate|reflexivity].
Qed.

End ExtractFacts.

Module ExtractClaims.
Import PyStr Extract ExtractFacts Batch.

(** C6 (amended): for an identifier [id] over [[a-zA-Z0-9_-]], the
    canonical, short-link and shorts URLs all yield exactly [id]; the shorts
    pattern is tried first and wins whenever it matches; otherwise a string
    containing "youtu.be" yields its last '/'-segment cut at the first '?'
    (without any further validation); a string matching none of the three
    markers yields [None]. The function is total: it never raises. *)
Theorem extract_video_id_shapes (id : string) (Hid : valid_id id = true) :
  extract_video_id (PyStr ("https://www.youtube.com/watch?v=" ++ id)) = Some id /\
  extract_video_id (PyStr ("https://youtu.be/" ++ id)) = Some id /\
  extract_video_id (PyStr ("https://youtube.com/shorts/" ++ id)) = Some id /\
  (forall u g, search_shorts u = Some g -> extract_video_id (PyStr u) = Some g) /\
  (forall u, search_shorts u = None -> contains "youtu.be" u = true ->
     extract_video_id (PyStr u)
     = Some (hd EmptyString (split_char "?" (List.last (split_char "/" u) EmptyString)))) /\
  (forall u, search_shorts u = None -> contains "youtu.be" u = false ->
     contains "youtube.com" u = false -> extract_video_id (PyStr u) = None).
Proof.
  repeat split.
  - apply (extract_canonical id Hid).
  - apply (extract_short_link id Hid).
  - apply (extract_shorts id Hid).
  - intros u g H. unfold extract_video_id. simpl.
    pose proof (search_shorts_contains u g H) as C.
    rewrite (contains_truthy "shorts" u eq_refl C). simpl.
    unfold extract_from_string. rewrite C, H. reflexivity.
  - intros u H1 H2. unfold extract_video_id. simpl.
    rewrite (contains_truthy "youtu.be" u eq_refl H2). simpl.
    unfold extract_from_string. rewrite H1, H2. apply if_same.
  - intros u H1 H2 H3. unfold extract_video_id. simpl.
    destruct (truthy u); [|reflexivity]. simpl.
    unfold extract_from_string. rewrite H1, H2, H3. apply if_same.
Qed.

Lemma extract_video_id_shapes_witness :
  valid_id "dQw4w9WgXcQ" = true /\
  extract_video_id (PyStr ("https://youtu.be/" ++ "dQw4w9WgXcQ")) = Some "dQw4w9WgXcQ".
Proof.
  split; [reflexivity|].
  exact (proj1 (proj2 (extract_video_id_shapes "dQw4w9WgXcQ" eq_refl))).
Defined.

(** C6, counterexample: a string with no video reference in it that merely
    contains "youtu.be" is not reported as unrecognized: it comes back whole. *)
Lemma extract_video_id_unrecognized_counterexample :
  extract_video_id (PyStr "see youtu.be for details") = Some "see youtu.be for details".
Proof. vm_compute. reflexivity. Qed.

(** C10: a cell that is [None], the empty string or not a string at all
    (a [NaN] from an empty spreadsheet cell, a number, a boolean) gives
    [None] through the type guard, and the batch turns it into the flagged
    "invalid URL" row instead of failing. *)
Theorem extract_video_id_non_string (v : pyval) (sv : services)
  (Hv : v = PyNone \/ v = PyStr "" \/ is_str v = false) :
  extract_video_id v = None /\ process_row sv v = invalid_row v.
Proof.
  assert (E : extract_video_id v = None).
  { destruct Hv as [-> | [-> | Hs]]; [reflexivity | reflexivity |].
    unfold extract_video_id. rewrite Hs, orb_true_r. reflexivity. }
  split; [exact E|]. unfold process_row. rewrite E. reflexivity.
Qed.

Lemma extract_video_id_non_string_witness :
  extract_video_id PyFloat_NaN = None /\
  process_row (mkServices (Summarizer.mkEnv None None) (fun _ => Summarizer.HttpExc "")
                 (fun _ => Summarizer.TNoTranscriptFound) (fun _ => Summarizer.GErr ""))
    PyFloat_NaN = invalid_row PyFloat_NaN.
Proof.
  apply (extract_video_id_non_string PyFloat_NaN).
  right; right; reflexivity.
Defined.

End ExtractClaims.

Module SummarizerClaims.
Import Summarizer Fixtures.

(** C4: Korean is requested first; when it is found English is never
    requested and the Korean text is summarized; when Korean is not found
    and English is, English is requested second and its text is summarized;
    when neither is found the outcome is the "no captions" message; when the
    source reports captions disabled, at either request, the outcome is the
    "disabled" message. *)
Theorem transcript_resolver_fallback
  (e : env) (transcripts : string -> transcript_result)
  (completion : nat -> completion_result) :
  let r := get_video_summary e transcripts completion in
  (forall texts, transcripts "ko" = TOk texts ->
     transcript_calls (snd r) = ["ko"] /\
     (forall k s, load_api_keys e = Ok k -> completion 0 = GOk s ->
        fst r = (String.concat " " texts, s))) /\
  (forall texts, transcripts "ko" = TNoTranscriptFound -> transcripts "en" = TOk texts ->
     transcript_calls (snd r) = ["ko"; "en"] /\
     (forall k s, load_api_keys e = Ok k -> completion 0 = GOk s ->
        fst r = (String.concat " " texts, s))) /\
  (transcripts "ko" = TNoTranscriptFound -> transcripts "en" = TNoTranscriptFound ->
     fst r = ("", msg_no_captions)) /\
  (transcripts "ko" = TTranscriptsDisabled -> fst r = ("", msg_disabled)) /\
  (transcripts "ko" = TNoTranscriptFound -> transcripts "en" = TTranscriptsDisabled ->
     fst r = ("", msg_disabled)).
Proof.
  intro r. subst r. unfold get_video_summary.
  repeat split; intros;
    repeat match goal with H : transcripts _ = _ |- _ => rewrite H; clear H end;
    cbv beta iota;
    repeat match goal with H : _ = _ |- _ => rewrite H; clear H end;
    try reflexivity;
    (destruct (load_api_keys e); [destruct (completion 0)|]; reflexivity).
Qed.

(** C2 (amended), summarizer part: the completion service is asked once at
    most and never after a sleep; a failed request is not retried and comes
    back as the diagnostic string "오류가 발생했습니다: ...", whether the
    transcript came in Korean or, after the fallback, in English. Title part,
    for every environment and every way an attempt can raise: the title
    lookup is the one with the bounded retry: three attempts, a sleep of
    [retry_delay] = 1 between failed attempts (so at most 2), a value in every
    case, the title after as many sleeps as failed attempts before it (so
    exactly 2 when the first two attempts raise and the third succeeds), and
    the diagnostic "제목 가져오기 실패: ..." after 2 sleeps when all three
    raise. *)
Theorem summarizer_single_attempt_title_retry :
  (forall e tr c,
     completion_calls (snd (get_video_summary e tr c)) <= 1 /\
     summary_sleeps (snd (get_video_summary e tr c)) = 0 /\
     (forall texts k m,
        (tr "ko" = TOk texts \/ (tr "ko" = TNoTranscriptFound /\ tr "en" = TOk texts)) ->
        load_api_keys e = Ok k -> c 0 = GErr m ->
        fst (get_video_summary e tr c) = ("", msg_error m) /\
        completion_calls (snd (get_video_summary e tr c)) = 1)) /\
  (forall e http,
     snd (get_video_title e http) <= 2 /\ fst (get_video_title e http) <> None /\
     title_delays e http = List.repeat 1 (snd (get_video_title e http))) /\
  (forall e http t,
     title_attempt e http 0 = Ok t -> get_video_title e http = (Some t, 0)) /\
  (forall e http m0 t,
     title_attempt e http 0 = Exc m0 -> title_attempt e http 1 = Ok t ->
     get_video_title e http = (Some t, 1) /\ title_delays e http = [1]) /\
  (forall e http m0 m1 t,
     title_attempt e http 0 = Exc m0 -> title_attempt e http 1 = Exc m1 ->
     title_attempt e http 2 = Ok t ->
     get_video_title e http = (Some t, 2) /\ title_delays e http = [1; 1]) /\
  (forall e http m0 m1 m2,
     title_attempt e http 0 = Exc m0 -> title_attempt e http 1 = Exc m1 ->
     title_attempt e http 2 = Exc m2 ->
     get_video_title e http = (Some (msg_title_failed m2), 2) /\
     title_delays e http = [1; 1]).
Proof.
  split; [|split; [|split; [|split; [|split]]]].
  - intros e tr c. split; [|split].
    + unfold get_video_summary.
      destruct (tr "ko"); simpl;
        try (destruct (tr "en"); simpl);
        try destruct (load_api_keys e); simpl; try lia;
        try destruct (c 0); simpl; lia.
    + unfold get_video_summary.
      destruct (tr "ko"); simpl;
        try (destruct (tr "en"); simpl);
        try destruct (load_api_keys e); simpl; try reflexivity;
        try destruct (c 0); reflexivity.
    + intros texts k m Htr H2 H3. unfold get_video_summary.
      destruct Htr as [H1 | [H1 H1']]; rewrite H1; [|rewrite H1']; simpl;
        rewrite H2, H3; split; reflexivity.
  - intros e http. split; [|split].
    + unfold get_video_title. simpl.
      destruct (title_attempt e http 0); simpl; [lia|].
      destruct (title_attempt e http 1); simpl; [lia|].
      destruct (title_attempt e http 2); simpl; lia.
    + unfold get_video_title. simpl.
      destruct (title_attempt e http 0); simpl; [discriminate|].
      destruct (title_attempt e http 1); simpl; [discriminate|].
      destruct (title_attempt e http 2); simpl; discriminate.
    + reflexivity.
  - intros e http t H0. unfold get_video_title. simpl. rewrite H0. reflexivity.
  - intros e http m0 t H0 H1. unfold title_delays, get_video_title. simpl.
    rewrite H0, H1. split; reflexivity.
  - intros e http m0 m1 t H0 H1 H2. unfold title_delays, get_video_title. simpl.
    rewrite H0, H1, H2. split; reflexivity.
  - intros e http m0 m1 m2 H0 H1 H2. unfold title_delays, get_video_title. simpl.
    rewrite H0, H1, H2. split; reflexivity.
Qed.

(** C2, counterexample: the completion request fails twice and would
    succeed the third time; the summarizer does not retry: it returns the
    first error as the summary, after one request and no sleep. *)
Lemma summarizer_retry_counterexample :
  get_video_summary keys_env (fun _ => TOk ["hello"; "world"])
    (fun n => match n with 0 => GErr "timeout" | 1 => GErr "timeout" | _ => GOk "요약" end)
  = (("", msg_error "timeout"), mkTrace ["ko"] 1 0).
Proof. reflexivity. Qed.

End SummarizerClaims.

Module BatchFacts.
Import Extract Batch.

Lemma process_row_url (sv : services) (u : pyval) : url (process_row sv u) = u.
Proof.
  unfold process_row. destruct (extract_video_id u) as [v|]; [|reflexivity].
  destruct (PyStr.truthy v); [|reflexivity].
  destruct (Summarizer.get_video_summary _ _ _) as [[o s] t]. reflexivity.
Qed.

Lemma excel_loop_complete (processing : nat -> bool) (svc : nat -> services) :
  forall rows index results,
  (forall i, i < length rows -> processing (index + i) = true) ->
  exists rs, excel_loop processing svc index rows results = Some (app results rs) /\
    length rs = length rows /\
    (forall j u, nth_error rows j = Some u ->
       nth_error rs j = Some (process_row (svc (index + j)) u)).
Proof.
  induction rows as [|u rows IH]; intros index results H.
  - exists []. rewrite app_nil_r. split; [reflexivity|]. split; [reflexivity|].
    intros [|j] v Hj; discriminate Hj.
  - simpl. rewrite <- (Nat.add_0_r index), H by (simpl; lia).
    rewrite Nat.add_0_r. simpl.
    destruct (IH (S index) (app results [process_row (svc index) u])) as [rs [E [L N]]].
    { intros i Hi. replace (S index + i) with (index + S i) by lia.
      apply H. simpl. lia. }
    exists (process_row (svc index) u :: rs). rewrite E, <- app_assoc.
    split; [reflexivity|]. split; [simpl; lia|].
    intros [|j] v Hj; simpl in Hj |- *.
    + inversion Hj. rewrite Nat.add_0_r. reflexivity.
    + rewrite (N j v Hj). replace (index + S j) with (S index + j) by lia. reflexivity.
Qed.

Lemma excel_loop_cancel (processing : nat -> bool) (svc : nat -> services) :
  forall rows index results k,
  k < length rows ->
  (forall i, i < k -> processing (index + i) = true) ->
  processing (index + k) = false ->
  excel_loop processing svc index rows results = None.
Proof.
  induction rows as [|u rows IH]; intros index results k Hk Hrun Hstop;
    [simpl in Hk; lia|].
  simpl. destruct k as [|k].
  - rewrite Nat.add_0_r in Hstop. rewrite Hstop. reflexivity.
  - rewrite <- (Nat.add_0_r index), Hrun by lia. rewrite Nat.add_0_r. simpl.
    apply (IH (S index) _ k); [simpl in Hk; lia| |].
    + intros i Hi. replace (S index + i) with (index + S i) by lia. apply Hrun. lia.
    + replace (S index + k) with (index + S k) by lia. exact Hstop.
Qed.

End BatchFacts.

Module BatchClaims.
Import Extract Batch BatchFacts Fixtures.

(** C5: when the flag stays set for every row, the thread saves a table
    with exactly one record per input row, in input order: record [j] is the
    row-[j] outcome (the flagged "invalid URL" record for a bad reference,
    diagnostic texts for transcript or generation failures) and carries the
    row's URL cell. *)
Theorem excel_output_row_parity (processing : nat -> bool) (svc : nat -> services)
  (rows : list pyval)
  (Hrun : forall i, i < length rows -> processing i = true) :
  exists rs, process_excel_thread processing svc rows = Some rs /\
    length rs = length rows /\ List.map url rs = rows /\
    (forall j u, nth_error rows j = Some u -> nth_error rs j = Some (process_row (svc j) u)).
Proof.
  destruct (excel_loop_complete processing svc rows 0 [] Hrun) as [rs [E [L N]]].
  exists rs. unfold process_excel_thread. rewrite E. split; [reflexivity|].
  split; [exact L|]. split; [|exact N].
  apply nth_error_ext. intros j. rewrite nth_error_map.
  destruct (nth_error rows j) as [u|] eqn:Hj.
  - rewrite (N j u Hj). simpl. rewrite process_row_url. reflexivity.
  - apply nth_error_None in Hj. rewrite <- L in Hj.
    apply nth_error_None in Hj. rewrite Hj. reflexivity.
Qed.

Lemma excel_output_row_parity_witness :
  (forall i, i < 3 -> (fun _ : nat => true) i = true) /\
  exists rs, process_excel_thread (fun _ => true) (fun _ => no_services)
               [PyStr "https://youtu.be/dQw4w9WgXcQ"; PyFloat_NaN; PyStr "hello"] = Some rs /\
    length rs = 3 /\
    List.map url rs = [PyStr "https://youtu.be/dQw4w9WgXcQ"; PyFloat_NaN; PyStr "hello"] /\
    (forall j u, nth_error [PyStr "https://youtu.be/dQw4w9WgXcQ"; PyFloat_NaN; PyStr "hello"] j
                 = Some u -> nth_error rs j = Some (process_row no_services u)).
Proof.
  split; [intros; reflexivity|].
  apply (excel_output_row_parity (fun _ => true) (fun _ => no_services)).
  intros; reflexivity.
Defined.

(** C1 (amended): if the flag is found cleared at the check before row
    [k+1] ([k < n]), the thread returns there without saving: no table is
    written at all and the [k] rows already computed are discarded. *)
Theorem excel_cancel_discards (processing : nat -> bool) (svc : nat -> services)
  (rows : list pyval) (k : nat)
  (Hk : k < length rows)
  (Hrun : forall i, i < k -> processing i = true)
  (Hstop : processing k = false) :
  process_excel_thread processing svc rows = None.
Proof. apply (excel_loop_cancel processing svc rows 0 [] k); auto. Qed.

Lemma excel_cancel_discards_witness :
  1 < length [PyStr "https://youtu.be/aaa"; PyStr "https://youtu.be/bbb"] /\
  process_excel_thread (fun i => Nat.ltb i 1) (fun _ => no_services)
    [PyStr "https://youtu.be/aaa"; PyStr "https://youtu.be/bbb"] = None.
Proof.
  split; [simpl; lia|].
  apply (excel_cancel_discards (fun i => Nat.ltb i 1) (fun _ => no_services) _ 1).
  - simpl; lia.
  - intros i Hi. apply Nat.ltb_lt. exact Hi.
  - reflexivity.
Defined.

(** C1, counterexample: two rows, the flag cleared after the first row
    completed: the output is not the one completed row; nothing is saved. *)
Lemma excel_cancel_counterexample :
  process_excel_thread (fun i => Nat.ltb i 1) (fun _ => no_services)
    [PyStr "https://youtu.be/aaa"; PyStr "https://youtu.be/bbb"] <>
  Some [process_row no_services (PyStr "https://youtu.be/aaa")].
Proof. vm_compute. discriminate. Qed.

End BatchClaims.

Module SearchFacts.
Import PyStr Search Fixtures.

Lemma make_record_shift (index off : nat) (vid : string) (d : video_info) :
  make_record index off vid d = make_record (index + off) 0 vid d.
Proof. unfold make_record. rewrite Nat.add_0_r. reflexivity. Qed.

(** A page's records are those of its hits numbered from [1 + offset]. *)
Lemma enrich_page_shift (items : list hit) :
  forall off index, enrich_page off index items = enrich_page 0 (index + off) items.
Proof.
  induction items as [|it rest IH]; intros off index; [reflexivity|].
  simpl. rewrite (IH off (S index)).
  replace (S index + off) with (S (index + off) + 0) by lia.
  rewrite <- (IH 0 (S (index + off))).
  destruct (hit_detail it); try reflexivity.
  rewrite make_record_shift. reflexivity.
Qed.

Lemma enrich_page_app (hs items : list hit) :
  forall p, enrich_page 0 p (app hs items)
            = app (enrich_page 0 p hs) (enrich_page 0 (p + length hs) items).
Proof.
  induction hs as [|h hs IH]; intros p; simpl.
  - rewrite Nat.add_0_r. reflexivity.
  - rewrite IH. replace (S p + length hs) with (p + S (length hs)) by lia.
    destruct (hit_detail h); reflexivity.
Qed.

Lemma enrich_page_length (hs : list hit) :
  forall p, length (enrich_page 0 p hs) = length (filter is_detail_ok hs).
Proof.
  induction hs as [|h hs IH]; intros p; [reflexivity|].
  cbn [enrich_page filter].
  change (is_detail_ok h) with (match hit_detail h with DetailOk _ => true | _ => false end).
  destruct (hit_detail h); cbn [length]; rewrite IH; reflexivity.
Qed.

Lemma filter_counts (hs : list hit) :
  length (filter is_detail_ok hs) + length (filter is_transport_error hs)
  + length (filter is_no_items hs) = length hs.
Proof.
  induction hs as [|h hs IH]; [reflexivity|]. cbn [filter].
  change (is_detail_ok h) with (match hit_detail h with DetailOk _ => true | _ => false end).
  change (is_transport_error h)
    with (match hit_detail h with DetailTransportError _ => true | _ => false end).
  change (is_no_items h) with (match hit_detail h with DetailNoItems => true | _ => false end).
  destruct (hit_detail h); cbn [length]; lia.
Qed.

Lemma enrich_page_index_range (hs : list hit) :
  forall p x, In x (List.map Index (enrich_page 0 p hs)) -> p <= x < p + length hs.
Proof.
  induction hs as [|h hs IH]; intros p x Hx; [contradiction|].
  simpl in Hx |- *.
  destruct (hit_detail h); simpl in Hx;
    try (apply IH in Hx; lia).
  destruct Hx as [Hx|Hx]; [simpl in Hx; lia|]. apply IH in Hx. lia.
Qed.

Lemma enrich_page_sorted (hs : list hit) :
  forall p, StronglySorted lt (List.map Index (enrich_page 0 p hs)).
Proof.
  induction hs as [|h hs IH]; intros p; [constructor|].
  simpl. destruct (hit_detail h); simpl; auto.
  constructor; [apply IH|].
  apply Forall_forall. intros x Hx. apply enrich_page_index_range in Hx. lia.
Qed.

Lemma enrich_page_all_ok (hs : list hit) :
  forallb is_detail_ok hs = true ->
  forall p, List.map Index (enrich_page 0 p hs) = seq p (length hs).
Proof.
  induction hs as [|h hs IH]; intros H p; [reflexivity|].
  simpl in H |- *. apply andb_prop in H as [H1 H2].
  unfold is_detail_ok in H1. destruct (hit_detail h); try discriminate.
  simpl. rewrite Nat.add_0_r, IH; auto.
Qed.

Lemma fetch_loop_step (fuel : nat) (server : nat -> page_response) (st : search_state) :
  fetch_loop (S fuel) server st =
  match server (requests st) with
  | PageTransportError _ =>
      (mkState (video_details st) (total_results_fetched st) (S (requests st))
         (seen_hits st), true)
  | PageOk items next_page_token =>
      let st' := mkState (app (video_details st)
                              (enrich_page (total_results_fetched st) 1 items))
                   (total_results_fetched st + length items) (S (requests st))
                   (app (seen_hits st) items) in
      if negb (token_truthy next_page_token)
         || Nat.leb 200 (total_results_fetched st + length items)
      then (st', true)
      else fetch_loop fuel server st'
  end.
Proof. reflexivity. Qed.

Section Run.
Variable server : nat -> page_response.

Lemma fetch_loop_inv (fuel : nat) :
  forall st, run_inv st -> run_inv (fst (fetch_loop fuel server st)).
Proof.
  induction fuel as [|fuel IH]; intros st [H1 H2]; [split; auto|].
  rewrite fetch_loop_step.
  destruct (server (requests st)) as [m|items tok]; [split; auto|].
  assert (Inv' : run_inv (mkState (app (video_details st)
                                        (enrich_page (total_results_fetched st) 1 items))
                            (total_results_fetched st + length items)
                            (S (requests st)) (app (seen_hits st) items))).
  { split; simpl.
    - rewrite H1, H2, enrich_page_app, (enrich_page_shift items). reflexivity.
    - rewrite length_app, H2. reflexivity. }
  destruct (negb (token_truthy tok) || Nat.leb 200 (total_results_fetched st + length items)); [exact Inv'|].
  apply IH. exact Inv'.
Qed.

Lemma fetch_loop_cap_stop (fuel : nat) :
  forall st j, total_results_fetched st = hits_before server (requests st) ->
  requests st <= j -> 200 <= hits_before server (S j) ->
  requests (fst (fetch_loop fuel server st)) <= S j.
Proof.
  induction fuel as [|fuel IH]; intros st j Ht Hr Hcap; [simpl; lia|].
  rewrite fetch_loop_step.
  destruct (server (requests st)) as [m|items tok] eqn:E; [simpl; lia|]. cbv zeta.
  destruct (negb (token_truthy tok) || Nat.leb 200 (total_results_fetched st + length items))
    eqn:C; [simpl; lia|].
  apply orb_false_elim in C as [_ C]. apply Nat.leb_gt in C.
  assert (Hnext : total_results_fetched st + length items = hits_before server (S (requests st))).
  { simpl. rewrite E, Ht. reflexivity. }
  destruct (Nat.eq_dec (requests st) j) as [Ej|Ej].
  - subst j. lia.
  - apply IH; simpl; [exact Hnext | lia | exact Hcap].
Qed.

Hypothesis page_size : forall n items tok, server n = PageOk items tok -> length items <= 50.

Lemma fetch_loop_total_bound (fuel : nat) :
  forall st, total_results_fetched st < 200 ->
  total_results_fetched (fst (fetch_loop fuel server st)) < 250.
Proof.
  induction fuel as [|fuel IH]; intros st H; [simpl; lia|].
  rewrite fetch_loop_step.
  destruct (server (requests st)) as [m|items tok] eqn:E; [simpl; lia|].
  pose proof (page_size _ _ _ E) as Hp. cbv zeta.
  destruct (negb (token_truthy tok) || Nat.leb 200 (total_results_fetched st + length items)) eqn:C; [simpl; lia|].
  apply IH. simpl. apply orb_false_elim in C as [_ C].
  apply Nat.leb_gt in C. exact C.
Qed.

End Run.

Lemma fetch_loop_stops_at (server : nat -> page_response) (j : nat)
  (Hj : match server j with
        | PageOk _ tok => token_truthy tok = false
        | PageTransportError _ => True
        end) (fuel : nat) :
  forall st, requests st <= j -> requests (fst (fetch_loop fuel server st)) <= S j.
Proof.
  induction fuel as [|fuel IH]; intros st H; [simpl; lia|].
  rewrite fetch_loop_step.
  destruct (Nat.eq_dec (requests st) j) as [E|Hne].
  - rewrite E. destruct (server j) as [m|items tok]; [simpl; lia|].
    rewrite Hj. simpl. lia.
  - destruct (server (requests st)) as [m|items tok]; [simpl; lia|]. cbv zeta.
    destruct (negb (token_truthy tok) || Nat.leb 200 (total_results_fetched st + length items));
      [simpl; lia|].
    apply IH. simpl. lia.
Qed.

End SearchFacts.

Module SearchClaims.
Import Search SearchFacts Fixtures.

(** C3 (amended): with pages of at most 50 hits, the run never requests a
    page after one without a continuation cursor (or after a failed page
    request), and the cap is checked after each whole page: no page is
    requested after the one with which the cumulative hit count reaches 200
    or more, the cumulative count ends below 250 (not 200), and the
    accumulated records never outnumber it. *)
Theorem paginator_bounds (fuel : nat) (server : nat -> page_response)
  (Hpages : forall n items tok, server n = PageOk items tok -> length items <= 50) :
  let st := fst (fetch_youtube_data fuel server) in
  length (video_details st) <= total_results_fetched st /\
  total_results_fetched st < 250 /\
  (forall j items tok, server j = PageOk items tok -> token_truthy tok = false ->
     requests st <= S j) /\
  (forall j m, server j = PageTransportError m -> requests st <= S j) /\
  (forall j, 200 <= hits_before server (S j) -> requests st <= S j).
Proof.
  intro st. unfold st, fetch_youtube_data.
  destruct (fetch_loop_inv server fuel (mkState [] 0 0 []) (conj eq_refl eq_refl))
    as [I1 I2].
  split; [|split; [|split; [|split]]].
  4: { intros j m Hj. apply fetch_loop_stops_at; [rewrite Hj; exact I | simpl; lia]. }
  4: { intros j Hj. apply fetch_loop_cap_stop; [reflexivity | simpl; lia | exact Hj]. }
  - rewrite I1, I2, enrich_page_length. apply filter_length_le.
  - apply fetch_loop_total_bound; [exact Hpages | simpl; lia].
  - intros j items tok Hj Ht. apply fetch_loop_stops_at; [rewrite Hj; exact Ht | simpl; lia].
Qed.

Lemma paginator_bounds_witness :
  (forall n items tok, (fun _ : nat => PageOk [ok_hit] None) n = PageOk items tok ->
     length items <= 50) /\
  length (video_details (fst (fetch_youtube_data 3 (fun _ => PageOk [ok_hit] None))))
    <= total_results_fetched (fst (fetch_youtube_data 3 (fun _ => PageOk [ok_hit] None))).
Proof.
  assert (H : forall n items tok, (fun _ : nat => PageOk [ok_hit] None) n = PageOk items tok ->
              length items <= 50).
  { intros n items tok E. inversion E. simpl. lia. }
  split; [exact H|].
  exact (proj1 (paginator_bounds 3 (fun _ => PageOk [ok_hit] None) H)).
Defined.

(** C3, counterexample: pages of 49 hits, each with a cursor: the count is
    196 after four pages, so a fifth page is fetched and 245 records are
    accumulated. *)
Lemma paginator_cap_counterexample :
  length (video_details (fst (fetch_youtube_data 10
            (fun _ => PageOk (repeat ok_hit 49) (Some "CAUQAA"))))) = 245.
Proof. vm_compute. reflexivity. Qed.

(** C7 (amended): the records are exactly those of the hits whose detail
    request answered with a non-empty item list, in order, numbered by their
    hit position: a hit whose detail request fails (transport error) or
    answers with no item is skipped and the loop goes on with the next hit.
    Over the [N] hits received, with [M] transport failures and [E] empty
    answers, there are exactly [N - M - E] records. *)
Theorem enricher_skips_failures (fuel : nat) (server : nat -> page_response) :
  let st := fst (fetch_youtube_data fuel server) in
  let hs := seen_hits st in
  video_details st = enrich_page 0 1 hs /\
  length (video_details st)
  = length hs - length (filter is_transport_error hs) - length (filter is_no_items hs).
Proof.
  intros st hs. unfold hs, st, fetch_youtube_data.
  destruct (fetch_loop_inv server fuel (mkState [] 0 0 []) (conj eq_refl eq_refl))
    as [I1 _].
  split; [exact I1|].
  rewrite I1, enrich_page_length.
  pose proof (filter_counts (seen_hits (fst (fetch_loop fuel server (mkState [] 0 0 []))))).
  lia.
Qed.

(** C7, counterexample: one hit, no transport failure ([N = 1], [M = 0]),
    but its detail request answers with an empty item list: no record. *)
Lemma enricher_count_counterexample :
  let st := fst (fetch_youtube_data 1 (fun _ => PageOk [mkHit "gone" DetailNoItems] None)) in
  length (seen_hits st) = 1 /\ length (filter is_transport_error (seen_hits st)) = 0 /\
  length (video_details st) = 0.
Proof. vm_compute. repeat split. Qed.

(** C8 (amended): each record's [Index] is the global 1-based position of
    its hit among all hits received (position in its page plus the hits of
    earlier pages); the [Index] values are strictly increasing, hence
    unique, and lie between 1 and the hit count; they are exactly 1, 2, ...,
    N (no gap) when no hit is skipped. *)
Theorem index_numbering (fuel : nat) (server : nat -> page_response) :
  let st := fst (fetch_youtube_data fuel server) in
  let hs := seen_hits st in
  video_details st = enrich_page 0 1 hs /\
  total_results_fetched st = length hs /\
  StronglySorted lt (List.map Index (video_details st)) /\
  (forall x, In x (List.map Index (video_details st)) -> 1 <= x <= length hs) /\
  (forallb is_detail_ok hs = true -> List.map Index (video_details st) = seq 1 (length hs)).
Proof.
  intros st hs. unfold hs, st, fetch_youtube_data.
  destruct (fetch_loop_inv server fuel (mkState [] 0 0 []) (conj eq_refl eq_refl))
    as [I1 I2].
  rewrite I1. split; [reflexivity|]. split; [exact I2|]. split; [|split].
  - apply enrich_page_sorted.
  - intros x Hx. apply enrich_page_index_range in Hx. lia.
  - intros H. apply enrich_page_all_ok. exact H.
Qed.

(** C8, counterexample: one page of two hits whose first detail request
    fails: the only record has [Index] 2, so the numbering of the output
    has a gap at 1. *)
Lemma index_gap_counterexample :
  List.map Index (video_details (fst (fetch_youtube_data 1
     (fun _ => PageOk [mkHit "aaa" (DetailTransportError "timeout"); ok_hit] None))))
  = [2].
Proof. vm_compute. reflexivity. Qed.

End SearchClaims.

Module SummarizerExtras.
Import PyStr Summarizer.

(** [load_api_keys] returns both keys when both are set (non-empty), and
    otherwise raises [ValueError] naming exactly the missing ones, openai
    before youtube. *)
Theorem load_api_keys_missing (o y : option string) :
  (key_present o = true -> key_present y = true ->
     exists ko ky, o = Some ko /\ y = Some ky /\ load_api_keys (mkEnv o y) = Ok (ko, ky)) /\
  (key_present o = false -> key_present y = true ->
     load_api_keys (mkEnv o y) = Exc "다음 API 키가 설정되지 않았습니다: openai") /\
  (key_present o = true -> key_present y = false ->
     load_api_keys (mkEnv o y) = Exc "다음 API 키가 설정되지 않았습니다: youtube") /\
  (key_present o = false -> key_present y = false ->
     load_api_keys (mkEnv o y) = Exc "다음 API 키가 설정되지 않았습니다: openai, youtube").
Proof.
  unfold load_api_keys; simpl.
  repeat split; intros Ho Hy; rewrite Ho, Hy; simpl.
  - destruct o as [ko|]; [|discriminate]. destruct y as [ky|]; [|discriminate].
    exists ko, ky. auto.
  - reflexivity.
  - destruct o; reflexivity.
  - reflexivity.
Qed.

(** An HTTP answer that is not 200 with a title is not retried: the first
    attempt already returns "제목을 가져올 수 없습니다" without sleeping; only
    exceptions are retried. *)
Theorem title_status_failure_not_retried (e : env) (http : nat -> http_outcome)
  (k : string * string) (status : nat) (t : option string)
  (Hk : load_api_keys e = Ok k) (Hh : http 0 = HttpStatus status t)
  (Hs : status <> 200 \/ t = None) :
  get_video_title e http = (Some msg_no_title, 0).
Proof.
  unfold get_video_title. simpl. unfold title_attempt. rewrite Hk, Hh.
  destruct Hs as [Hs | ->].
  - do 200 (destruct status as [|status]; [reflexivity|]).
    destruct status as [|status]; [congruence|].
    destruct t; reflexivity.
  - do 201 (destruct status as [|status]; [reflexivity|]). reflexivity.
Qed.

Lemma title_status_failure_not_retried_witness :
  load_api_keys Fixtures.keys_env = Ok ("sk-test", "yt-test") /\
  get_video_title Fixtures.keys_env (fun _ => HttpStatus 404 (Some "title"))
  = (Some msg_no_title, 0).
Proof.
  split; [reflexivity|].
  apply (title_status_failure_not_retried Fixtures.keys_env
           (fun _ => HttpStatus 404 (Some "title")) ("sk-test", "yt-test") 404 (Some "title"));
    [reflexivity | reflexivity | left; discriminate].
Defined.

(** With a key missing, every attempt raises in [load_api_keys] before any
    request: the title is "제목 가져오기 실패: " and the key message, after two
    sleeps, whatever the network would answer. *)
Theorem title_missing_keys_offline (e : env) (m : string)
  (Hk : load_api_keys e = Exc m) :
  forall http, get_video_title e http = (Some (msg_title_failed m), 2).
Proof.
  intros http. unfold get_video_title. simpl. unfold title_attempt. rewrite Hk.
  reflexivity.
Qed.

Lemma title_missing_keys_offline_witness :
  load_api_keys (mkEnv None (Some "yt-test"))
  = Exc "다음 API 키가 설정되지 않았습니다: openai" /\
  get_video_title (mkEnv None (Some "yt-test")) (fun _ => HttpStatus 200 (Some "title"))
  = (Some (msg_title_failed "다음 API 키가 설정되지 않았습니다: openai"), 2).
Proof.
  split; [reflexivity|].
  apply (title_missing_keys_offline (mkEnv None (Some "yt-test"))
           "다음 API 키가 설정되지 않았습니다: openai" eq_refl).
Defined.

(** [get_video_summary_async] returns a non-empty original text only if the
    keys are set, a transcript was found in Korean (or, after
    [NoTranscriptFound], in English), and the single completion request
    answered: the text is then the transcript texts joined by spaces and
    the summary the completion's content. *)
Theorem summary_text_only_with_completion (e : env) (tr : string -> transcript_result)
  (c : nat -> completion_result)
  (Hne : fst (fst (get_video_summary e tr c)) <> "") :
  exists k content texts,
    load_api_keys e = Ok k /\ c 0 = GOk content /\
    completion_calls (snd (get_video_summary e tr c)) = 1 /\
    fst (get_video_summary e tr c) = (String.concat " " texts, content) /\
    (tr "ko" = TOk texts \/ (tr "ko" = TNoTranscriptFound /\ tr "en" = TOk texts)).
Proof.
  revert Hne. unfold get_video_summary.
  destruct (tr "ko") as [texts| | |m] eqn:Eko;
    [| destruct (tr "en") as [texts| | |m] eqn:Een | |];
    cbn beta iota zeta;
    try (intros H; exfalso; apply H; reflexivity);
    (destruct (load_api_keys e) as [k|m] eqn:Ek;
       [|intros H; exfalso; apply H; reflexivity]);
    (destruct (c 0) as [content|m] eqn:Ec;
       [|intros H; exfalso; apply H; reflexivity]);
    intros _; exists k, content, texts; repeat split; auto.
Qed.

Lemma summary_text_only_with_completion_witness :
  fst (fst (get_video_summary Fixtures.keys_env (fun _ => TOk ["hello"; "world"])
              (fun _ => GOk "summary"))) <> "" /\
  completion_calls (snd (get_video_summary Fixtures.keys_env (fun _ => TOk ["hello"; "world"])
                           (fun _ => GOk "summary"))) = 1.
Proof.
  assert (H : fst (fst (get_video_summary Fixtures.keys_env (fun _ => TOk ["hello"; "world"])
                          (fun _ => GOk "summary"))) <> "") by (simpl; discriminate).
  split; [exact H|].
  destruct (summary_text_only_with_completion _ _ _ H)
    as [k [content [texts [_ [_ [C _]]]]]].
  exact C.
Defined.

End SummarizerExtras.

Module OpenFileExtras.
Import Summarizer OpenFile.

(** [open_file] stops at the first attempt that launches the opener,
    after one sleep per failed attempt, and gives up with [False] after
    three failures and two sleeps. *)
Theorem open_file_attempts (launch : nat -> result unit) :
  (forall k, k < 3 -> (forall j, j < k -> exists m, launch j = Exc m) ->
     launch k = Ok tt -> open_file launch = (Some true, k)) /\
  (forall m0 m1 m2, launch 0 = Exc m0 -> launch 1 = Exc m1 -> launch 2 = Exc m2 ->
     open_file launch = (Some false, 2)).
Proof.
  split.
  - intros k Hk Hbefore Hok. unfold open_file. simpl.
    destruct k as [|[|[|k]]]; try lia.
    + rewrite Hok. reflexivity.
    + destruct (Hbefore 0 ltac:(lia)) as [m0 E0]. rewrite E0, Hok. reflexivity.
    + destruct (Hbefore 0 ltac:(lia)) as [m0 E0]. destruct (Hbefore 1 ltac:(lia)) as [m1 E1].
      rewrite E0, E1, Hok. reflexivity.
  - intros m0 m1 m2 E0 E1 E2. unfold open_file. simpl. rewrite E0, E1, E2. reflexivity.
Qed.

End OpenFileExtras.

Module PathFacts.
Import PyStr PyPath.

Lemma append_empty_r (s : string) : s ++ EmptyString = s.
Proof. induction s as [|a s IH]; simpl; congruence. Qed.

Lemma get_length (s : string) : forall n c, get n s = Some c -> n < String.length s.
Proof.
  induction s as [|a s IH]; intros n c H; [discriminate|].
  destruct n; simpl in H |- *; [lia|]. apply IH in H. lia.
Qed.

Lemma substring_split (p : string) :
  forall d, d <= String.length p ->
  substring 0 d p ++ substring d (String.length p - d) p = p.
Proof.
  induction p as [|a p IH]; intros d Hd.
  - simpl in Hd. assert (d = 0) as -> by lia. reflexivity.
  - destruct d as [|d]; simpl.
    + f_equal. clear. induction p as [|b p IH]; simpl; congruence.
    + f_equal. simpl in Hd. destruct d; simpl.
      * specialize (IH 0 ltac:(lia)). rewrite ?Nat.sub_0_r in IH |- *. exact IH.
      * apply (IH (S d)). lia.
Qed.

Lemma substring_get_cons (s : string) :
  forall n c, get n s = Some c ->
  substring n (String.length s - n) s
  = String c (substring (S n) (String.length s - S n) s).
Proof.
  induction s as [|a s IH]; intros n c H; [discriminate|].
  destruct n as [|n]; simpl in H |- *.
  - injection H as ->. f_equal. rewrite Nat.sub_0_r.
    clear. induction s as [|b s IH]; simpl; congruence.
  - apply IH. exact H.
Qed.

Lemma forall_str_get (P : ascii -> bool) (s : string) :
  (forall j c, get j s = Some c -> P c = true) -> forall_str P s = true.
Proof.
  induction s as [|a s IH]; intros H; [reflexivity|].
  simpl. rewrite (H 0 a eq_refl). simpl. apply IH.
  intros j c Hj. apply (H (S j)). exact Hj.
Qed.

Lemma rfind_from_some (f : ascii -> bool) (s : string) :
  forall i found r, rfind_from f s i found = Some r ->
  (found = Some r /\ forall j c, get j s = Some c -> f c = false) \/
  (i <= r /\ (exists c, get (r - i) s = Some c /\ f c = true) /\
   forall j c, r - i < j -> get j s = Some c -> f c = false).
Proof.
  induction s as [|a s IH]; intros i found r H.
  - left. split; [exact H|]. intros j c Hj. discriminate Hj.
  - simpl in H. apply IH in H as [[H1 H2] | [H1 [H2 H3]]].
    + destruct (f a) eqn:Ea.
      * injection H1 as <-. right. split; [lia|]. split.
        -- exists a. rewrite Nat.sub_diag. auto.
        -- intros j c Hj Hg. destruct j as [|j]; [lia|]. simpl in Hg. eauto.
      * left. split; [exact H1|]. intros j c Hg.
        destruct j as [|j]; simpl in Hg; [congruence|]. eauto.
    + right. split; [lia|].
      replace (r - i) with (S (r - S i)) by lia. split; [exact H2|].
      intros j c Hj Hg. destruct j as [|j]; [lia|]. simpl in Hg.
      apply (H3 j c); [lia | exact Hg].
Qed.

Lemma rfind_from_none (f : ascii -> bool) (s : string) :
  forall i found, rfind_from f s i found = None ->
  found = None /\ forall j c, get j s = Some c -> f c = false.
Proof.
  induction s as [|a s IH]; intros i found H.
  - split; [exact H|]. intros j c Hj. discriminate Hj.
  - simpl in H. apply IH in H as [H1 H2].
    destruct (f a) eqn:Ea; [discriminate|]. split; [exact H1|].
    intros j c Hg. destruct j as [|j]; simpl in Hg; [congruence|]. eauto.
Qed.

Lemma rfind_some (f : ascii -> bool) (s : string) (r : nat) :
  rfind f s = Some r ->
  (exists c, get r s = Some c /\ f c = true) /\
  forall j c, r < j -> get j s = Some c -> f c = false.
Proof.
  intros H. apply rfind_from_some in H as [[H _] | [_ [H1 H2]]]; [discriminate|].
  rewrite Nat.sub_0_r in H1, H2. auto.
Qed.

Lemma rfind_none (f : ascii -> bool) (s : string) :
  rfind f s = None -> forall j c, get j s = Some c -> f c = false.
Proof. intros H. apply rfind_from_none in H as [_ H]. exact H. Qed.

Lemma split_at_dot (is_sep : ascii -> bool) (p : string) (d : nat)
  (Hd : get d p = Some "."%char)
  (Hafter : forall j c, d < j -> get j p = Some c -> Ascii.eqb c "." = false)
  (Hsep : forall j c, d < j -> get j p = Some c -> is_sep c = false) :
  substring 0 d p ++ substring d (String.length p - d) p = p /\
  ext_shape is_sep (substring d (String.length p - d) p).
Proof.
  pose proof (get_length p d "."%char Hd) as Hlen.
  split; [apply substring_split; lia|].
  right. exists (substring (S d) (String.length p - S d) p).
  split; [apply substring_get_cons; exact Hd|].
  apply forall_str_get. intros j c Hg.
  destruct (Nat.lt_ge_cases j (String.length p - S d)) as [Hj|Hj];
    [| rewrite substring_correct2 in Hg by exact Hj; discriminate].
  rewrite substring_correct1 in Hg by exact Hj.
  rewrite (Hafter (j + S d) c ltac:(lia) Hg), (Hsep (j + S d) c ltac:(lia) Hg).
  reflexivity.
Qed.

Lemma splitext_parts (is_sep : ascii -> bool) (p : string) :
  fst (splitext is_sep p) ++ snd (splitext is_sep p) = p /\
  ext_shape is_sep (snd (splitext is_sep p)).
Proof.
  assert (Whole : p ++ EmptyString = p /\ ext_shape is_sep EmptyString)
    by (rewrite append_empty_r; split; [reflexivity | left; reflexivity]).
  unfold splitext.
  destruct (rfind (fun c => Ascii.eqb c ".") p) as [d|] eqn:Ed; [|exact Whole].
  destruct (rfind_some _ _ _ Ed) as [[dot [Hd Hdot]] Hafter].
  apply Ascii.eqb_eq in Hdot. subst dot.
  destruct (rfind is_sep p) as [k|] eqn:Ek.
  - destruct (Nat.ltb k d) eqn:Ekd; [|exact Whole].
    apply Nat.ltb_lt in Ekd.
    destruct (negb _); [|exact Whole].
    apply split_at_dot; [exact Hd | exact Hafter |].
    intros j c Hj Hg. destruct (rfind_some _ _ _ Ek) as [_ Hk].
    apply (Hk j c); [lia | exact Hg].
  - destruct (negb _); [|exact Whole].
    apply split_at_dot; [exact Hd | exact Hafter |].
    intros j c _ Hg. exact (rfind_none _ _ Ek j c Hg).
Qed.

Lemma rfind_from_app (f : ascii -> bool) (s t : string) :
  forall i found,
  rfind_from f (s ++ t) i found = rfind_from f t (i + String.length s) (rfind_from f s i found).
Proof.
  induction s as [|a s IH]; intros i found; simpl; [rewrite Nat.add_0_r; reflexivity|].
  rewrite IH. f_equal. lia.
Qed.

Lemma rfind_from_skip (f : ascii -> bool) (t : string) :
  forall i found, forall_str (fun c => negb (f c)) t = true -> rfind_from f t i found = found.
Proof.
  induction t as [|a t IH]; intros i found H; [reflexivity|].
  simpl in H |- *. apply andb_prop in H as [Ha H].
  destruct (f a); [discriminate Ha|]. apply IH. exact H.
Qed.

Lemma rfind_from_bound (f : ascii -> bool) (s : string) :
  forall i found r, rfind_from f s i found = Some r ->
  found = Some r \/ (i <= r /\ r < i + String.length s).
Proof.
  induction s as [|a s IH]; intros i found r H; [left; exact H|].
  simpl in H. apply IH in H as [H|H]; [|right; simpl; lia].
  destruct (f a); [injection H as <-; right; simpl; lia | left; exact H].
Qed.

Lemma forall_str_impl (f g : ascii -> bool) (s : string) :
  (forall c, f c = true -> g c = true) -> forall_str f s = true -> forall_str g s = true.
Proof.
  intros Hfg. induction s as [|a s IH]; simpl; [auto|].
  intros H. apply andb_prop in H as [Ha H]. rewrite (Hfg a Ha). simpl. auto.
Qed.

Lemma forall_str_get_true (f : ascii -> bool) (s : string) :
  forall j c, forall_str f s = true -> get j s = Some c -> f c = true.
Proof.
  induction s as [|a s IH]; intros j c H Hg; [discriminate|].
  simpl in H. apply andb_prop in H as [Ha H].
  destruct j as [|j]; simpl in Hg; [injection Hg as <-; exact Ha | eauto].
Qed.

Lemma forall_str_append (f : ascii -> bool) (s t : string) :
  forall_str f s = true -> forall_str f t = true -> forall_str f (s ++ t) = true.
Proof.
  induction s as [|a s IH]; simpl; [auto|].
  intros H Ht. apply andb_prop in H as [Ha H]. rewrite Ha. simpl. auto.
Qed.

Lemma append_assoc_str (s t w : string) : (s ++ t) ++ w = s ++ (t ++ w).
Proof. induction s as [|a s IH]; simpl; congruence. Qed.

Lemma substring_app_l (s t : string) : substring 0 (String.length s) (s ++ t) = s.
Proof. induction s as [|a s IH]; simpl; [destruct t; reflexivity | rewrite IH; reflexivity]. Qed.

Lemma substring_app_r (s t : string) :
  substring (String.length s) (String.length t) (s ++ t) = t.
Proof.
  induction s as [|a s IH]; simpl; [|exact IH].
  induction t as [|b t IHt]; simpl; congruence.
Qed.

Lemma splitext_last_extension (is_sep : ascii -> bool) (stem e : string) :
  is_sep "."%char = false ->
  forall_str (fun c => negb (is_sep c) && negb (Ascii.eqb c ".")) e = true ->
  (exists u c v, stem = u ++ String c v /\ Ascii.eqb c "." = false /\ is_sep c = false /\
     forall_str (fun c => negb (is_sep c)) v = true) ->
  splitext is_sep (stem ++ String "." e) = (stem, String "." e).
Proof.
  intros Hdot He [u [c [v [Hs [Hc1 [Hc2 Hv]]]]]].
  assert (Hed : forall_str (fun c => negb (Ascii.eqb c ".")) e = true).
  { apply (forall_str_impl (fun c => negb (is_sep c) && negb (Ascii.eqb c "."))
      (fun c => negb (Ascii.eqb c ".")) e); [|exact He]. intros x Hx.
    apply andb_prop in Hx as [_ Hx]. exact Hx. }
  assert (Hes : forall_str (fun c => negb (is_sep c)) (String "." e) = true).
  { simpl. rewrite Hdot. simpl.
    apply (forall_str_impl (fun c => negb (is_sep c) && negb (Ascii.eqb c "."))
      (fun c => negb (is_sep c)) e); [|exact He]. intros x Hx.
    apply andb_prop in Hx as [Hx _]. exact Hx. }
  unfold splitext, rfind.
  rewrite rfind_from_app. simpl (rfind_from _ (String "." e) _ _).
  rewrite rfind_from_skip by exact Hed. cbn beta.
  assert (Hsep : rfind_from is_sep (stem ++ String "." e) 0 None = rfind is_sep u).
  { rewrite Hs, append_assoc_str, rfind_from_app. simpl. rewrite Hc2.
    apply rfind_from_skip. apply forall_str_append; [exact Hv | exact Hes]. }
  rewrite Hsep.
  assert (Hd : String.length stem = String.length u + S (String.length v))
    by (rewrite Hs, DurationFacts.length_append; reflexivity).
  assert (Body : forall i, i <= String.length u ->
    negb (forall_str (fun c => Ascii.eqb c ".") (substring i (String.length stem - i) (stem ++ String "." e)))
    = true).
  { intros i Hi.
    destruct (forall_str (fun c => Ascii.eqb c ".") (substring i (String.length stem - i) (stem ++ String "." e)))
      eqn:F; [|reflexivity]. exfalso.
    assert (G : get (String.length u - i) (substring i (String.length stem - i) (stem ++ String "." e)) = Some c).
    { rewrite substring_correct1 by lia. replace (String.length u - i + i) with (String.length u)
        by lia.
      rewrite Hs, append_assoc_str. clear. induction u as [|a u IH]; simpl; auto. }
    pose proof (forall_str_get_true _ _ _ _ F G) as X. simpl in X. rewrite Hc1 in X.
    discriminate X. }
  assert (Result : (substring 0 (String.length stem) (stem ++ String "." e),
                    substring (String.length stem) (String.length (stem ++ String "." e) - String.length stem) (stem ++ String "." e))
                   = (stem, String "." e)).
  { rewrite substring_app_l, DurationFacts.length_append.
    replace (String.length stem + String.length (String "." e) - String.length stem)
      with (String.length (String "." e)) by lia.
    rewrite substring_app_r. reflexivity. }
  destruct (rfind is_sep u) as [k|] eqn:Ek.
  - unfold rfind in Ek. apply rfind_from_bound in Ek as [Ek|Ek]; [discriminate Ek|].
    replace (Nat.ltb k (String.length stem)) with true by (symmetry; apply Nat.ltb_lt; lia).
    rewrite Body by lia. exact Result.
  - rewrite Body by lia. exact Result.
Qed.
(** A path without a dot has no extension. *)
Lemma splitext_no_dot (is_sep : ascii -> bool) (p : string) :
  forall_str (fun c => negb (Ascii.eqb c ".")) p = true -> splitext is_sep p = (p, EmptyString).
Proof.
  intros H. unfold splitext, rfind. rewrite rfind_from_skip by exact H. reflexivity.
Qed.

End PathFacts.

Module GuiExtras.
Import PyStr PyStrip Extract Summarizer Batch Formatting Gui.

(** [start_processing] starts a worker only from an idle window, with the
    keys set and the required fields filled (the URL stripped); the window
    is then busy and any further [start_processing] is ignored until
    [stop_processing] clears the flag. *)
Theorem start_processing_single_worker (e : env) (m : mode) (g g' : gui) (j : job)
  (Hs : start_processing e m g = (g', WorkerStarted j)) :
  processing g = false /\ processing g' = true /\
  (exists k, load_api_keys e = Ok k) /\
  match j with
  | ExcelJob i o => m = ExcelMode /\ i = input_path_var g /\ o = output_path_var g /\
                    truthy i = true /\ truthy o = true
  | UrlJob u => m = UrlMode /\ u = strip (url_var g) /\ truthy u = true
  end /\
  (forall e' m', start_processing e' m' g' = (g', Ignored)) /\
  processing (stop_processing g') = false.
Proof.
  unfold start_processing in Hs.
  destruct (processing g) eqn:Ep; [discriminate|].
  destruct (load_api_keys e) as [k|msg] eqn:Ek; [|discriminate].
  destruct m.
  - destruct (truthy (input_path_var g)) eqn:Ei; [|discriminate].
    destruct (truthy (output_path_var g)) eqn:Eo; [|discriminate].
    simpl in Hs. injection Hs as <- <-.
    repeat split; eauto.
  - destruct (truthy (strip (url_var g))) eqn:Eu; [|discriminate].
    simpl in Hs. injection Hs as <- <-.
    repeat split; eauto.
Qed.

Lemma start_processing_single_worker_witness :
  start_processing Fixtures.keys_env UrlMode
    (mkGui false "" "" "  https://youtu.be/dQw4w9WgXcQ " "")
  = (mkGui true "" "" "  https://youtu.be/dQw4w9WgXcQ " "",
     WorkerStarted (UrlJob "https://youtu.be/dQw4w9WgXcQ")) /\
  start_processing Fixtures.keys_env ExcelMode
    (mkGui true "" "" "  https://youtu.be/dQw4w9WgXcQ " "")
  = (mkGui true "" "" "  https://youtu.be/dQw4w9WgXcQ " "", Ignored).
Proof.
  assert (H : start_processing Fixtures.keys_env UrlMode
                (mkGui false "" "" "  https://youtu.be/dQw4w9WgXcQ " "")
              = (mkGui true "" "" "  https://youtu.be/dQw4w9WgXcQ " "",
                 WorkerStarted (UrlJob "https://youtu.be/dQw4w9WgXcQ"))) by reflexivity.
  split; [exact H|].
  exact (proj1 (proj2 (proj2 (proj2 (proj2 (start_processing_single_worker _ _ _ _ _ H)))))
           Fixtures.keys_env ExcelMode).
Defined.

(** [process_single_url] builds the same row as the batch
    ([process_row]) for that URL, and when it reports an invalid URL, the
    batch would write the invalid-URL row for it too. *)
Theorem single_url_agrees_with_batch (sv : services) (ts : string) (io : result unit)
  (g : gui) (url : string) :
  match process_single_url sv ts io g url with
  | (_, _, Some (_, df)) => df = [process_row sv (PyStr url)]
  | (text, g', None) =>
      text = msg_invalid_url /\ g' = g /\ process_row sv (PyStr url) = invalid_row (PyStr url)
  end.
Proof.
  unfold process_single_url, process_row.
  destruct (extract_video_id (PyStr url)) as [vid|]; [|auto].
  destruct (truthy vid); [|auto].
  destruct (get_video_summary _ _ _) as [[o s] t].
  destruct (save_excel_with_formatting _ _ _); reflexivity.
Qed.

(** When [process_single_url] reaches the save, the file is the chosen
    output path or ["youtube_summary_<timestamp>.xlsx"], it is written back
    to the output field, and the text shown is the result text after a
    successful save and the wrapped save error otherwise. *)
Theorem single_url_output_file (sv : services) (ts : string) (io : result unit)
  (g g' : gui) (url text file : string) (df : list summary_record)
  (Hp : process_single_url sv ts io g url = (text, g', Some (file, df))) :
  file = (if truthy (url_output_var g) then url_output_var g
          else "youtube_summary_" ++ ts ++ ".xlsx") /\
  url_output_var g' = file /\
  (io = Ok tt -> exists r, df = [r] /\
     text = result_text (title r) url (original_text r) (summary r)) /\
  (forall m, io = Exc m -> text = msg_processing_failed (msg_save_failed m)).
Proof.
  unfold process_single_url in Hp.
  destruct (extract_video_id (PyStr url)) as [vid|]; [|discriminate].
  destruct (truthy vid); [|discriminate].
  destruct (get_video_summary _ _ _) as [[o s] t].
  unfold save_excel_with_formatting in Hp.
  destruct io as [[]|m].
  - simpl in Hp. injection Hp as <- <- <- <-. repeat split; auto.
    + intros _. eexists; split; reflexivity.
    + intros m' H. discriminate H.
  - injection Hp as <- <- <- <-. repeat split; auto.
    + intros H. discriminate H.
    + intros m' H. injection H as ->. reflexivity.
Qed.

Lemma single_url_output_file_witness :
  exists text g' df,
    process_single_url Fixtures.no_services "20240101_120000" (Ok tt)
      (mkGui false "" "" "" "") "https://youtu.be/dQw4w9WgXcQ"
    = (text, g', Some ("youtube_summary_20240101_120000.xlsx", df)) /\
    url_output_var g' = "youtube_summary_20240101_120000.xlsx".
Proof.
  assert (E : exists text g' df,
    process_single_url Fixtures.no_services "20240101_120000" (Ok tt)
      (mkGui false "" "" "" "") "https://youtu.be/dQw4w9WgXcQ"
    = (text, g', Some ("youtube_summary_20240101_120000.xlsx", df)))
    by (do 3 eexists; reflexivity).
  destruct E as [text [g' [df H]]]. exists text, g', df. split; [exact H|].
  exact (proj1 (proj2 (single_url_output_file _ _ _ _ _ _ _ _ _ H))).
Defined.

End GuiExtras.

Module GuiSelectExtras.
Import PyStr PyPath Gui.

(** [select_input_file]: a cancelled dialog changes nothing; otherwise the
    input field gets the file, an already chosen output is kept, and an
    empty output becomes [os.path.splitext(filename)[0]] followed by
    "_요약결과_<timestamp>.xlsx": the input path minus its last extension.
    That stem and an extension (empty, or a dot and then characters that
    are neither dots nor separators) make up the input path; a path without
    a dot is kept whole; and a path [stem ++ "." ++ e], with [e] free of
    dots and separators and the last component of [stem] holding a
    character other than a dot, loses exactly ["." ++ e]. *)
Theorem select_input_file_output (is_sep : ascii -> bool) (filename timestamp : string) (g : gui) :
  let g' := select_input_file is_sep filename timestamp g in
  (filename = EmptyString -> g' = g) /\
  (filename <> EmptyString ->
     input_path_var g' = filename /\ processing g' = processing g /\
     url_var g' = url_var g /\ url_output_var g' = url_output_var g /\
     (output_path_var g <> EmptyString -> output_path_var g' = output_path_var g) /\
     (output_path_var g = EmptyString ->
        output_path_var g' = fst (splitext is_sep filename) ++ "_요약결과_" ++ timestamp ++ ".xlsx" /\
        (exists stem ext, output_path_var g' = stem ++ "_요약결과_" ++ timestamp ++ ".xlsx" /\
          stem ++ ext = filename /\ ext_shape is_sep ext) /\
        (forall_str (fun c => negb (Ascii.eqb c ".")) filename = true ->
          output_path_var g' = filename ++ "_요약결과_" ++ timestamp ++ ".xlsx") /\
        (forall stem e, is_sep "."%char = false ->
          filename = stem ++ String "." e ->
          forall_str (fun c => negb (is_sep c) && negb (Ascii.eqb c ".")) e = true ->
          (exists u c v, stem = u ++ String c v /\ Ascii.eqb c "." = false /\
             is_sep c = false /\ forall_str (fun c => negb (is_sep c)) v = true) ->
          output_path_var g' = stem ++ "_요약결과_" ++ timestamp ++ ".xlsx"))).
Proof.
  cbv zeta. unfold select_input_file. split.
  - intros ->. reflexivity.
  - intros Hf. destruct filename as [|a f]; [contradiction|]. simpl.
    split; [reflexivity|]. split; [reflexivity|]. split; [reflexivity|].
    split; [reflexivity|]. split.
    + intros Ho. destruct (output_path_var g); [contradiction|reflexivity].
    + intros Ho. rewrite Ho. simpl. split; [reflexivity|]. split; [|split].
      * destruct (PathFacts.splitext_parts is_sep (String a f)) as [E S].
        eexists. eexists. split; [reflexivity|]. split; [exact E|exact S].
      * intros Hn. rewrite (PathFacts.splitext_no_dot is_sep (String a f) Hn). reflexivity.
      * intros stem e Hdot Hfn He Hu. rewrite Hfn.
        rewrite (PathFacts.splitext_last_extension is_sep stem e Hdot He Hu). reflexivity.
Qed.

(** An instance: with an empty output field, "dir/report.v1.xlsx" gives
    "dir/report.v1_요약결과_<timestamp>.xlsx". *)
Lemma select_input_file_output_witness :
  output_path_var (select_input_file is_posix_sep "dir/report.v1.xlsx" "20240101_120000"
                     (mkGui false "" "" "" ""))
  = "dir/report.v1_요약결과_20240101_120000.xlsx".
Proof.
  destruct (select_input_file_output is_posix_sep "dir/report.v1.xlsx" "20240101_120000"
    (mkGui false "" "" "" "")) as [_ H].
  destruct (H ltac:(discriminate)) as [_ [_ [_ [_ [_ H']]]]].
  destruct (H' eq_refl) as [_ [_ [_ Hlast]]].
  apply (Hlast "dir/report.v1" "xlsx"); [reflexivity | reflexivity | reflexivity |].
  exists "dir/report.v", "1"%char, EmptyString. repeat split.
Defined.

End GuiSelectExtras.


Module FormattingFacts.
Import PyStr Summarizer Formatting.

Lemma column_letters_acc (fuel : nat) :
  forall n acc, column_letters fuel n acc = app acc (column_letters fuel n []).
Proof.
  induction fuel as [|fuel IH]; intros n acc; simpl; [rewrite app_nil_r; reflexivity|].
  destruct (Nat.ltb 0 n); [|rewrite app_nil_r; reflexivity].
  destruct (if Nat.eqb (n mod 26) 0 then _ else _) as [q r].
  rewrite (IH q (app acc _)), (IH q [_]). rewrite <- app_assoc. reflexivity.
Qed.

Lemma column_letters_value (fuel : nat) :
  forall n, n <= fuel ->
  letters_value (column_letters fuel n []) = n /\
  Forall (fun c => is_upper c = true) (column_letters fuel n []).
Proof.
  induction fuel as [|fuel IH]; intros n Hn.
  - assert (n = 0) as -> by lia. split; [reflexivity | constructor].
  - cbn [column_letters]. destruct (Nat.ltb 0 n) eqn:Epos; [|apply Nat.ltb_ge in Epos;
      assert (n = 0) as -> by lia; split; [reflexivity | constructor]].
    apply Nat.ltb_lt in Epos.
    pose proof (Nat.div_mod_eq n 26) as Hdm.
    pose proof (Nat.mod_upper_bound n 26 ltac:(lia)) as Hlt.
    destruct (Nat.eqb (n mod 26) 0) eqn:E0.
    + apply Nat.eqb_eq in E0.
      assert (Hq : 1 <= n / 26) by lia.
      rewrite column_letters_acc. cbn [app].
      destruct (IH (n / 26 - 1) ltac:(lia)) as [IHv IHu].
      split.
      * cbn [letters_value]. rewrite IHv. rewrite nat_ascii_embedding by lia. lia.
      * constructor; [reflexivity | exact IHu].
    + apply Nat.eqb_neq in E0.
      assert (Hq : n / 26 < n) by (apply Nat.div_lt; lia).
      rewrite column_letters_acc. cbn [app].
      destruct (IH (n / 26) ltac:(lia)) as [IHv IHu].
      split.
      * cbn [letters_value]. rewrite IHv. rewrite nat_ascii_embedding by lia. lia.
      * constructor; [|exact IHu].
        unfold is_upper, in_range. rewrite nat_ascii_embedding by lia.
        apply andb_true_intro. split; apply Nat.leb_le; lia.
Qed.

Lemma get_column_letter_ok (k : nat) (letter : string) :
  get_column_letter k = Ok letter ->
  1 <= k <= 18278 /\ letter = string_of_list_ascii (List.rev (column_letters k k [])).
Proof.
  unfold get_column_letter.
  destruct (Nat.leb 1 k) eqn:E1; [|discriminate].
  destruct (Nat.leb k 18278) eqn:E2; [|discriminate].
  intros H. injection H as <-. apply Nat.leb_le in E1, E2. auto.
Qed.

Lemma get_column_letter_in_range (k : nat) :
  1 <= k <= 18278 ->
  get_column_letter k = Ok (string_of_list_ascii (List.rev (column_letters k k []))).
Proof.
  intros [H1 H2]. unfold get_column_letter.
  apply Nat.leb_le in H1. apply Nat.leb_le in H2. rewrite H1, H2. reflexivity.
Qed.

Lemma letter_value (k : nat) :
  letters_value (List.rev (list_ascii_of_string
    (string_of_list_ascii (List.rev (column_letters k k []))))) = k.
Proof.
  rewrite list_ascii_of_string_of_list_ascii, rev_involutive.
  apply (column_letters_value k k). lia.
Qed.

Lemma letter_upper (k : nat) :
  forall_str is_upper (string_of_list_ascii (List.rev (column_letters k k []))) = true.
Proof.
  destruct (column_letters_value k k (le_n k)) as [_ Hu].
  apply Forall_rev in Hu. induction (List.rev _) as [|c l IH]; [reflexivity|].
  inversion Hu as [|? ? Hc Hl]; subst. simpl. rewrite Hc. apply IH. exact Hl.
Qed.

Lemma letter_inj (k1 k2 : nat) :
  string_of_list_ascii (List.rev (column_letters k1 k1 []))
  = string_of_list_ascii (List.rev (column_letters k2 k2 [])) -> k1 = k2.
Proof.
  intros H. rewrite <- (letter_value k1), <- (letter_value k2), H. reflexivity.
Qed.

Lemma string_of_uint_digits (u : Decimal.uint) :
  forall_str is_digit (NilEmpty.string_of_uint u) = true.
Proof. induction u; simpl; auto. Qed.

Lemma py_str_nat_head (n : nat) :
  exists c rest, Duration.py_str_nat n = String c rest /\ is_upper c = false.
Proof.
  unfold Duration.py_str_nat, NilZero.string_of_uint.
  pose proof (string_of_uint_digits (Nat.to_uint n)) as Hd.
  destruct (Nat.to_uint n); simpl in Hd |- *; eexists; eexists; split; reflexivity.
Qed.

Lemma py_str_nat_inj (a b : nat) : Duration.py_str_nat a = Duration.py_str_nat b -> a = b.
Proof.
  intros H. pose proof (DurationFacts.py_str_nat_uint a) as Ha.
  rewrite H, DurationFacts.py_str_nat_uint in Ha. injection Ha as Ha.
  rewrite <- (Unsigned.of_to a), <- (Unsigned.of_to b), Ha. reflexivity.
Qed.

(** A cell reference splits uniquely into its letters and its row. *)
Lemma cell_split (l1 l2 : string) (r1 r2 : nat) :
  forall_str is_upper l1 = true -> forall_str is_upper l2 = true ->
  l1 ++ Duration.py_str_nat r1 = l2 ++ Duration.py_str_nat r2 -> l1 = l2 /\ r1 = r2.
Proof.
  destruct (py_str_nat_head r1) as [c1 [t1 [E1 U1]]].
  destruct (py_str_nat_head r2) as [c2 [t2 [E2 U2]]].
  revert l2. induction l1 as [|a l1 IH]; intros l2 H1 H2 H; destruct l2 as [|b l2].
  - split; [reflexivity|]. apply py_str_nat_inj. exact H.
  - simpl in H, H2. rewrite E1 in H. injection H as -> _.
    rewrite U1 in H2. discriminate.
  - simpl in H, H1. rewrite E2 in H. injection H as <- _.
    rewrite U2 in H1. discriminate.
  - simpl in H, H1, H2. injection H as -> H.
    apply andb_prop in H1 as [_ H1]. apply andb_prop in H2 as [_ H2].
    destruct (IH l2 H1 H2 H) as [-> ->]. auto.
Qed.

Lemma append_inj_l (l s1 s2 : string) : l ++ s1 = l ++ s2 -> s1 = s2.
Proof. induction l as [|a l IH]; simpl; [auto|]. intros H. injection H. auto. Qed.


Lemma format_columns_spec (nrows : nat) (cols : list string) :
  forall idx, 1 <= idx -> idx - 1 + length cols <= 18278 ->
  format_columns idx cols nrows
  = Ok (flat_map (fun kc => column_actions
                    (string_of_list_ascii (List.rev (column_letters (fst kc) (fst kc) [])))
                    (snd kc) nrows)
          (combine (seq idx (length cols)) cols)).
Proof.
  induction cols as [|col rest IH]; intros idx H1 H2; [reflexivity|].
  cbn [length] in H2. cbn [length seq combine flat_map format_columns fst snd].
  unfold get_column_letter at 1.
  replace (Nat.leb 1 idx && Nat.leb idx 18278) with true
    by (symmetry; apply andb_true_intro; split; apply Nat.leb_le; lia).
  rewrite (IH (S idx) ltac:(lia) ltac:(lia)). reflexivity.
Qed.

Lemma aligned_cells_app (a b : list format_action) :
  aligned_cells (app a b) = app (aligned_cells a) (aligned_cells b).
Proof. unfold aligned_cells. apply flat_map_app. Qed.

Lemma aligned_cells_flat_map {A : Type} (g : A -> list format_action) (l : list A) :
  aligned_cells (flat_map g l) = flat_map (fun x => aligned_cells (g x)) l.
Proof.
  induction l as [|x l IH]; [reflexivity|].
  simpl. rewrite aligned_cells_app, IH. reflexivity.
Qed.

Lemma aligned_cells_column (letter col : string) (nrows : nat) :
  aligned_cells (column_actions letter col nrows)
  = List.map (fun row => letter ++ Duration.py_str_nat row) (seq 1 (S nrows)).
Proof.
  unfold aligned_cells, column_actions. cbn [flat_map app seq List.map].
  f_equal. induction (seq 2 nrows) as [|r l IH]; [reflexivity|].
  cbn [flat_map List.map app]. f_equal. exact IH.
Qed.

Lemma in_combine_seq {A : Type} (l : list A) :
  forall start k x, In (k, x) (combine (seq start (length l)) l) ->
  start <= k /\ nth_error l (k - start) = Some x.
Proof.
  induction l as [|y l IH]; intros start k x H; [contradiction|].
  simpl in H. destruct H as [H|H].
  - injection H as <- <-. rewrite Nat.sub_diag. split; [lia | reflexivity].
  - apply IH in H as [H1 H2]. split; [lia|].
    replace (k - start) with (S (k - S start)) by lia. exact H2.
Qed.

Lemma combine_seq_in {A : Type} (l : list A) :
  forall start i x, nth_error l i = Some x ->
  In (start + i, x) (combine (seq start (length l)) l).
Proof.
  induction l as [|y l IH]; intros start i x H; [destruct i; discriminate|].
  destruct i as [|i]; simpl in H |- *.
  - injection H as ->. left. rewrite Nat.add_0_r. reflexivity.
  - right. replace (start + S i) with (S start + i) by lia. apply IH. exact H.
Qed.

Lemma flat_map_length_const {A B : Type} (g : A -> list B) (n : nat) (l : list A) :
  (forall x, length (g x) = n) -> length (flat_map g l) = length l * n.
Proof.
  intros Hg. induction l as [|x l IH]; [reflexivity|].
  simpl. rewrite length_app, Hg, IH. reflexivity.
Qed.

Lemma cells_nodup (nrows : nat) (cols : list string) :
  forall idx,
  NoDup (flat_map (fun kc => List.map (fun row =>
            string_of_list_ascii (List.rev (column_letters (fst kc) (fst kc) [])) ++
            Duration.py_str_nat row) (seq 1 (S nrows)))
         (combine (seq idx (length cols)) cols)).
Proof.
  induction cols as [|col rest IH]; intros idx; [constructor|].
  change (seq idx (length (col :: rest))) with (idx :: seq (S idx) (length rest)).
  cbn [combine flat_map fst]. apply NoDup_app.
  - apply NoDup_map_NoDup_ForallPairs; [|apply seq_NoDup].
    intros r1 r2 _ _ H. apply append_inj_l in H. apply py_str_nat_inj. exact H.
  - apply IH.
  - intros x Hx Hy. apply in_map_iff in Hx as [r1 [<- _]].
    apply in_flat_map in Hy as [[k c] [Hk Hy]]. apply in_map_iff in Hy as [r2 [Hy _]].
    apply in_combine_seq in Hk as [Hk _]. simpl in Hy.
    apply cell_split in Hy as [Hy _]; try apply letter_upper.
    apply letter_inj in Hy. lia.
Qed.

Lemma header_is_row_one (letter : string) : letter ++ "1" = letter ++ Duration.py_str_nat 1.
Proof. reflexivity. Qed.

End FormattingFacts.

Module FormattingExtras.
Import PyStr Summarizer Formatting FormattingFacts.

(** [save_excel_with_formatting] gives an alignment to exactly the cells of
    the table, the header row and the data rows of every column (the cell
    named by the column's letter and a row in [1 .. len(df) + 1]), and to
    each of them once: [len(columns)] times [len(df) + 1] distinct cells. *)
Theorem save_formats_each_cell_once (columns : list string) (nrows : nat)
  (Hc : length columns <= 18278) :
  exists acts, save_excel_with_formatting (Ok tt) columns nrows = Ok acts /\
    (forall cell, In cell (aligned_cells acts) <->
       exists i col letter row, nth_error columns i = Some col /\
         get_column_letter (S i) = Ok letter /\ 1 <= row <= S nrows /\
         cell = letter ++ Duration.py_str_nat row) /\
    NoDup (aligned_cells acts) /\
    length (aligned_cells acts) = length columns * S nrows.
Proof.
  assert (Cells : forall cell,
    In cell (flat_map (fun kc => aligned_cells (column_actions
        (string_of_list_ascii (List.rev (column_letters (fst kc) (fst kc) [])))
        (snd kc) nrows)) (combine (seq 1 (length columns)) columns)) <->
    exists i col letter row, nth_error columns i = Some col /\
      get_column_letter (S i) = Ok letter /\ 1 <= row <= S nrows /\
      cell = letter ++ Duration.py_str_nat row).
  { intros cell. split.
    - intros H. apply in_flat_map in H as [[k col] [Hk H]].
      rewrite aligned_cells_column in H. apply in_map_iff in H as [row [<- Hrow]].
      apply in_combine_seq in Hk as [Hk1 Hk2]. apply in_seq in Hrow.
      pose proof (nth_error_Some columns (k - 1)) as Hlt.
      rewrite Hk2 in Hlt. destruct Hlt as [Hlt _]. specialize (Hlt ltac:(discriminate)).
      exists (k - 1), col, (string_of_list_ascii (List.rev (column_letters k k []))), row.
      split; [exact Hk2|]. split.
      + replace (S (k - 1)) with k by lia. apply get_column_letter_in_range. lia.
      + split; [lia | reflexivity].
    - intros [i [col [letter [row [Hi [Hl [Hrow ->]]]]]]].
      apply get_column_letter_ok in Hl as [_ ->].
      apply in_flat_map. exists (S i, col). split.
      + exact (combine_seq_in columns 1 i col Hi).
      + rewrite aligned_cells_column. apply in_map_iff. exists row.
        split; [reflexivity|]. apply in_seq. lia. }
  unfold save_excel_with_formatting.
  rewrite (format_columns_spec nrows columns 1 ltac:(lia) ltac:(lia)).
  eexists. split; [reflexivity|].
  rewrite aligned_cells_flat_map.
  split; [exact Cells|].
  rewrite (flat_map_ext _ _ (fun kc => aligned_cells_column _ (snd kc) nrows)).
  split; [apply cells_nodup|].
  rewrite (flat_map_length_const _ (S nrows)); [|intros; rewrite length_map, length_seq; reflexivity].
  rewrite length_combine, length_seq, Nat.min_id. reflexivity.
Qed.

Lemma save_formats_each_cell_once_witness :
  length summary_columns <= 18278 /\
  exists acts, save_excel_with_formatting (Ok tt) summary_columns 1 = Ok acts /\
    In "D2" (aligned_cells acts) /\ ~ In "E1" (aligned_cells acts) /\
    NoDup (aligned_cells acts) /\ length (aligned_cells acts) = length summary_columns * 2.
Proof.
  assert (Hc : length summary_columns <= 18278) by (apply Nat.leb_le; reflexivity).
  split; [exact Hc|].
  destruct (save_formats_each_cell_once summary_columns 1 Hc) as [acts [H [Cells [ND L]]]].
  exists acts. split; [exact H|]. split; [|split; [|split; [exact ND | exact L]]].
  - apply Cells. exists 3, "GPT 요약", "D", 2.
    split; [reflexivity|]. split; [reflexivity|]. split; [split; repeat constructor|].
    reflexivity.
  - intros Hin. apply Cells in Hin as [i [col [letter [row [Hi [Hl [_ Hcell]]]]]]].
    destruct i as [|[|[|[|i]]]]; simpl in Hi;
      [| | | | destruct i; discriminate Hi];
      injection Hi as <-; injection Hl as <-; discriminate Hcell.
Defined.

(** Column [i + 1] (letter [letter]) gets the width
    [column_widths.get(col, 30)]; its header cell gets the centred, wrapped
    alignment; each data cell gets the top alignment, wrapped exactly when
    the column is one of the two text columns. *)
Theorem save_cell_formats (columns : list string) (nrows : nat)
  (acts : list format_action) (Hc : length columns <= 18278)
  (Hf : save_excel_with_formatting (Ok tt) columns nrows = Ok acts) :
  forall i col letter,
  nth_error columns i = Some col -> get_column_letter (S i) = Ok letter ->
  (forall w, In (SetWidth letter w) acts <-> w = width_of col) /\
  (forall row a, 1 <= row <= S nrows ->
     In (SetAlignment (letter ++ Duration.py_str_nat row) a) acts <->
     a = if Nat.eqb row 1 then header_alignment else data_alignment col).
Proof.
  unfold save_excel_with_formatting in Hf.
  rewrite (format_columns_spec nrows columns 1 ltac:(lia) ltac:(lia)) in Hf.
  injection Hf as <-.
  intros i col letter Hi Hl.
  apply get_column_letter_ok in Hl as [Hrange ->].
  pose proof (combine_seq_in columns 1 i col Hi) as Hin. change (1 + i) with (S i) in Hin.
  split.
  - intros w. split.
    + intros H. apply in_flat_map in H as [[k c] [Hk H]].
      unfold column_actions in H. cbn [fst snd In] in H.
      destruct H as [H | [H | H]]; [| discriminate |
        apply in_map_iff in H as [r [H _]]; discriminate].
      injection H as Hlk <-. pose proof (letter_inj k (S i) Hlk) as Hk'. subst k.
      apply in_combine_seq in Hk as [_ Hk]. replace (S i - 1) with i in Hk by lia.
      rewrite Hi in Hk. injection Hk as ->. reflexivity.
    + intros ->. apply in_flat_map. exists (S i, col). split; [exact Hin|].
      left. reflexivity.
  - intros row a Hrow. split.
    + intros H. apply in_flat_map in H as [[k c] [Hk H]].
      unfold column_actions in H. cbn [fst snd In] in H.
      apply in_combine_seq in Hk as [_ Hk].
      destruct H as [H | [H | H]]; [discriminate | |].
      * injection H as Hcell <-. rewrite header_is_row_one in Hcell.
        destruct (cell_split _ _ _ _ (letter_upper k) (letter_upper (S i)) Hcell) as [_ Hr].
        subst row. reflexivity.
      * apply in_map_iff in H as [r [H Hr]]. injection H as Hcell <-.
        destruct (cell_split _ _ _ _ (letter_upper k) (letter_upper (S i)) Hcell) as [Hlk Hrr].
        subst r. pose proof (letter_inj k (S i) Hlk) as Hk'. subst k.
        replace (S i - 1) with i in Hk by lia. rewrite Hi in Hk. injection Hk as ->.
        apply in_seq in Hr. destruct row as [|[|row]]; [lia | lia | reflexivity].
    + intros ->. apply in_flat_map. exists (S i, col). split; [exact Hin|].
      unfold column_actions. cbn [fst snd In].
      destruct (Nat.eqb row 1) eqn:E1.
      * apply Nat.eqb_eq in E1. subst row. right. left. reflexivity.
      * apply Nat.eqb_neq in E1. right. right. apply in_map_iff.
        exists row. split; [reflexivity|]. apply in_seq. lia.
Qed.

Lemma save_cell_formats_witness :
  exists acts, save_excel_with_formatting (Ok tt) summary_columns 1 = Ok acts /\
    (forall w, In (SetWidth "C" w) acts <-> w = 60) /\
    (forall a, In (SetAlignment "C2" a) acts <-> a = data_alignment "원본 자막").
Proof.
  assert (Hc : length summary_columns <= 18278) by (apply Nat.leb_le; reflexivity).
  assert (E : exists acts, save_excel_with_formatting (Ok tt) summary_columns 1 = Ok acts)
    by (eexists; reflexivity).
  destruct E as [acts H]. exists acts. split; [exact H|].
  destruct (save_cell_formats summary_columns 1 acts Hc H 2 "원본 자막" "C" eq_refl eq_refl)
    as [Wd Al].
  split; [exact Wd|]. intros a. exact (Al 2 a (conj (le_S _ _ (le_n 1)) (le_n 2))).
Defined.

End FormattingExtras.

Module DatesFacts.
Import PyStr Dates.

Lemma uint_of_char_digit (c : ascii) (u : Decimal.uint) :
  is_digit c = true ->
  exists u', DecimalString.uint_of_char c (Some u) = Some u' /\
    forall acc, Nat.of_uint_acc u' acc = Nat.of_uint_acc u (10 * acc + (nat_of_ascii c - 48)).
Proof.
  intros H. destruct c as [[] [] [] [] [] [] [] []]; try discriminate H;
    eexists; split; try reflexivity; intros acc; simpl;
    rewrite Nat.tail_mul_spec; f_equal; lia.
Qed.

Lemma of_uint_acc_ge (d : Decimal.uint) :
  forall acc, acc * 10 ^ Decimal.nb_digits d <= Nat.of_uint_acc d acc.
Proof.
  induction d as [|d IH|d IH|d IH|d IH|d IH|d IH|d IH|d IH|d IH|d IH]; intros acc;
    simpl; try lia; rewrite Nat.tail_mul_spec;
    match goal with |- _ <= Nat.of_uint_acc _ ?a => specialize (IH a) end; nia.
Qed.

Lemma nzhead_not_D0 (d x : Decimal.uint) : Decimal.nzhead d <> Decimal.D0 x.
Proof. induction d; simpl; congruence. Qed.

Lemma to_uint_nb_digits (n : nat) : 1 <= n -> 10 ^ (Decimal.nb_digits (Nat.to_uint n) - 1) <= n.
Proof.
  intros Hn.
  assert (E : Nat.to_uint n = Decimal.unorm (Nat.to_uint n)).
  { rewrite <- (Unsigned.to_of (Nat.to_uint n)), Unsigned.of_to. reflexivity. }
  pose proof (DurationFacts.to_uint_not_nil n) as NN.
  pose proof (Unsigned.of_to n) as V.
  unfold Decimal.unorm in E.
  destruct (Decimal.nzhead (Nat.to_uint n)) eqn:Z.
  1: rewrite E in V; vm_compute in V; lia.
  1: exfalso; exact (nzhead_not_D0 _ _ Z).
  all: rewrite E in V |- *; simpl; rewrite Nat.sub_0_r;
    rewrite <- V; unfold Nat.of_uint; simpl;
    match goal with |- _ <= Nat.of_uint_acc ?d ?a => pose proof (of_uint_acc_ge d a) end;
    simpl in *; lia.

Qed.

Lemma string_of_uint_length (d : Decimal.uint) :
  String.length (NilEmpty.string_of_uint d) = Decimal.nb_digits d.
Proof. induction d; simpl; auto. Qed.

Lemma py_str_nat_length (n : nat) :
  String.length (Duration.py_str_nat n) = Decimal.nb_digits (Nat.to_uint n).
Proof.
  unfold Duration.py_str_nat, NilZero.string_of_uint.
  pose proof (DurationFacts.to_uint_not_nil n).
  destruct (Nat.to_uint n); [contradiction|..]; apply string_of_uint_length.
Qed.

Lemma py_str_nat_short (n : nat) : n <= 9999 -> String.length (Duration.py_str_nat n) <= 4.
Proof.
  intros H. assert (E : 9999 = 10 ^ 4 - 1) by reflexivity. rewrite E in H.
  rewrite py_str_nat_length.
  destruct n as [|n]; [vm_compute; lia|].
  pose proof (to_uint_nb_digits (S n) ltac:(lia)) as B.
  destruct (le_lt_dec (Decimal.nb_digits (Nat.to_uint (S n))) 4) as [L|L]; [exact L|].
  exfalso. assert (P : 10 ^ 4 <= 10 ^ (Decimal.nb_digits (Nat.to_uint (S n)) - 1))
    by (apply Nat.pow_le_mono_r; lia).
  lia.
Qed.

Lemma zeros_digits (k : nat) : forall_str is_digit (Duration.zeros k) = true.
Proof. induction k; simpl; auto. Qed.

Lemma forall_str_app (f : ascii -> bool) (s t : string) :
  forall_str f (s ++ t) = forall_str f s && forall_str f t.
Proof. induction s; simpl; [reflexivity|]. rewrite IHs, andb_assoc. reflexivity. Qed.

Lemma length_app_str (s t : string) : String.length (s ++ t) = String.length s + String.length t.
Proof. induction s; simpl; auto. Qed.

Lemma pad4_shape (y : nat) : y <= 9999 ->
  exists a b c d, pad4 y = String a (String b (String c (String d EmptyString))) /\
    is_digit a = true /\ is_digit b = true /\ is_digit c = true /\ is_digit d = true.
Proof.
  intros Hy. pose proof (py_str_nat_short y Hy) as L.
  assert (D : forall_str is_digit (pad4 y) = true).
  { unfold pad4. rewrite forall_str_app, zeros_digits. simpl.
    unfold Duration.py_str_nat, NilZero.string_of_uint.
    destruct (Nat.to_uint y); simpl; auto;
      apply FormattingFacts.string_of_uint_digits. }
  assert (Len : String.length (pad4 y) = 4).
  { unfold pad4. rewrite length_app_str, DurationFacts.length_zeros. lia. }
  destruct (pad4 y) as [|a [|b [|c [|d [|e s]]]]]; try discriminate Len.
  simpl in D. repeat rewrite andb_true_iff in D.
  exists a, b, c, d. tauto.
Qed.

Lemma year_re_pad4 (y : nat) (r : string) : y <= 9999 -> year_re (pad4 y ++ r) = Some (y, r).
Proof.
  intros Hy.
  pose proof (DurationFacts.padded_value (4 - String.length (Duration.py_str_nat y)) y) as V.
  change (Duration.digits_value (pad4 y) = Some y) in V.
  destruct (pad4_shape y Hy) as [a [b [c [d [E [Ha [Hb [Hc Hd]]]]]]]].
  rewrite E in V |- *.
  destruct (uint_of_char_digit d Decimal.Nil Hd) as [ud [Ud Vd]].
  destruct (uint_of_char_digit c ud Hc) as [uc [Uc Vc]].
  destruct (uint_of_char_digit b uc Hb) as [ub [Ub Vb]].
  destruct (uint_of_char_digit a ub Ha) as [ua [Ua Va]].
  unfold Duration.digits_value in V.
  change (NilZero.uint_of_string (String a (String b (String c (String d EmptyString)))))
    with (DecimalString.uint_of_char a (DecimalString.uint_of_char b
           (DecimalString.uint_of_char c (DecimalString.uint_of_char d (Some Decimal.Nil)))))
    in V.
  rewrite Ud, Uc, Ub, Ua in V. simpl in V. injection V as V.
  unfold Nat.of_uint in V. rewrite Va, Vb, Vc, Vd in V. simpl in V.
  unfold year_re, digit. simpl. rewrite Ha, Hb, Hc, Hd. f_equal. f_equal. lia.
Qed.

Lemma format_regex_match_ymd (y m d : nat) :
  y <= 9999 -> 1 <= m <= 12 -> 1 <= d <= 31 ->
  format_regex_match (ymd_string y m d) = Some (y, m, d, EmptyString).
Proof.
  intros Hy Hm Hd. unfold format_regex_match, ymd_string.
  rewrite (year_re_pad4 y _ Hy). cbn [lit Ascii.eqb].
  destruct m as [|[|[|[|[|[|[|[|[|[|[|[|[|m]]]]]]]]]]]]]; try lia;
  destruct d as [|[|[|[|[|[|[|[|[|[|[|[|[|[|[|[|[|[|[|[|[|[|[|[|[|[|[|[|[|[|[|[|d]]]]]]]]]]]]]]]]]]]]]]]]]]]]]]]]; try lia; reflexivity.
Qed.

Lemma strptime_ymd_string (y m d : nat) :
  valid_date y m d = true -> strptime_ymd (ymd_string y m d) = Some (y, m, d).
Proof.
  intros V. pose proof V as V'. unfold valid_date in V'.
  repeat rewrite andb_true_iff in V'. repeat rewrite Nat.leb_le in V'.
  assert (Dm : days_in_month y m <= 31).
  { unfold days_in_month. repeat (destruct m as [|m]; try lia); destruct (is_leap y); lia. }
  unfold strptime_ymd. rewrite format_regex_match_ymd by lia. rewrite V. reflexivity.
Qed.
End DatesFacts.

Module DatesExtras.
Import PyStr Dates SearchGui DatesFacts.

Lemma strptime_ymd_valid (s : string) (y m d : nat) :
  strptime_ymd s = Some (y, m, d) -> valid_date y m d = true /\ truthy s = true.
Proof.
  unfold strptime_ymd. intros H.
  destruct (format_regex_match s) as [[[[y' m'] d'] [|a r]]|] eqn:F; try discriminate.
  destruct (valid_date y' m' d') eqn:V; [|discriminate]. injection H as <- <- <-.
  split; [exact V|]. destruct s; [discriminate F|reflexivity].
Qed.

(** A start or end date accepted by [strptime] enters the search URL in its
    normal form YYYY-MM-DD, which is itself accepted, denotes the same
    date, and gives the same URL. *)
Theorem date_filter_normal_form (s : string) (y m d : nat)
  (Hs : strptime_ymd s = Some (y, m, d)) :
  strptime_ymd (ymd_string y m d) = Some (y, m, d) /\
  forall param suffix warning url,
    date_filter (Some s) param suffix warning url
      = (url ++ "&" ++ param ++ "=" ++ ymd_string y m d ++ suffix, []) /\
    date_filter (Some (ymd_string y m d)) param suffix warning url
      = date_filter (Some s) param suffix warning url.
Proof.
  destruct (strptime_ymd_valid s y m d Hs) as [V T].
  pose proof (strptime_ymd_string y m d V) as R.
  split; [exact R|]. intros param suffix warning url.
  assert (T' : truthy (ymd_string y m d) = true)
    by (unfold ymd_string; destruct (pad4 y); reflexivity).
  unfold date_filter. rewrite T, T', Hs, R. split; reflexivity.
Qed.

Lemma date_filter_normal_form_witness :
  strptime_ymd "2024-1-5" = Some (2024, 1, 5) /\
  date_filter (Some "2024-1-5") "publishedAfter" "T00:00:00Z" msg_bad_start "u"
  = ("u" ++ "&" ++ "publishedAfter" ++ "=" ++ ymd_string 2024 1 5 ++ "T00:00:00Z", []).
Proof.
  assert (H : strptime_ymd "2024-1-5" = Some (2024, 1, 5)) by reflexivity.
  split; [exact H|].
  exact (proj1 (proj2 (date_filter_normal_form _ _ _ _ H)
                  "publishedAfter" "T00:00:00Z" msg_bad_start "u")).
Defined.

End DatesExtras.


Module FormattingMore.
Import PyStr Summarizer Formatting FormattingFacts.

(** [get_column_letter] succeeds exactly on 1..18278, returns a non-empty
    string of capital letters, and never gives two columns the same
    letters. *)
Theorem get_column_letter_bijective_range :
  (forall k, (exists letter, get_column_letter k = Ok letter) <-> 1 <= k <= 18278) /\
  (forall k letter, get_column_letter k = Ok letter ->
     letter <> EmptyString /\ forall_str is_upper letter = true) /\
  (forall k1 k2 letter, get_column_letter k1 = Ok letter -> get_column_letter k2 = Ok letter ->
     k1 = k2).
Proof.
  split; [|split].
  - intros k. split.
    + intros [letter H]. exact (proj1 (get_column_letter_ok k letter H)).
    + intros [H1 H2]. unfold get_column_letter.
      apply Nat.leb_le in H1. apply Nat.leb_le in H2. rewrite H1, H2. eexists. reflexivity.
  - intros k letter H. destruct (get_column_letter_ok k letter H) as [Hk ->].
    split; [|apply letter_upper].
    intros E. pose proof (letter_value k) as L. rewrite E in L. simpl in L. lia.
  - intros k1 k2 letter H1 H2.
    destruct (get_column_letter_ok k1 letter H1) as [_ E1].
    destruct (get_column_letter_ok k2 letter H2) as [_ E2].
    apply letter_inj. rewrite <- E1, <- E2. reflexivity.
Qed.

End FormattingMore.

Module SearchGuiExtras.
Import PyStr PyStrip Extract Search Dates SearchGui.

Lemma date_filter_ok (s param suffix warning url : string) :
  (truthy s = true -> exists d, strptime_ymd s = Some d) ->
  snd (date_filter (or_none s) param suffix warning url) = [].
Proof.
  intros H. unfold or_none, date_filter. destruct (truthy s) eqn:T; [|reflexivity].
  rewrite T. destruct (H eq_refl) as [[[y m] d] E]. rewrite E. reflexivity.
Qed.

Lemma first_bad_date_none (l1 l2 : string) (v1 v2 : string) :
  first_bad_date [(l1, v1); (l2, v2)] = None ->
  (truthy v1 = true -> exists d, strptime_ymd v1 = Some d) /\
  (truthy v2 = true -> exists d, strptime_ymd v2 = Some d).
Proof.
  simpl. intros H. split; intros T.
  - rewrite T in H. destruct (strptime_ymd v1); [eauto|discriminate].
  - destruct (truthy v1); [destruct (strptime_ymd v1); [|discriminate]|];
      rewrite T in H; destruct (strptime_ymd v2); eauto; discriminate.
Qed.

Lemma search_base_url_warnings (k q c sd ed : string) :
  (truthy sd = true -> exists d, strptime_ymd sd = Some d) ->
  (truthy ed = true -> exists d, strptime_ymd ed = Some d) ->
  snd (search_base_url k q c (or_none sd) (or_none ed)) = [].
Proof.
  intros H1 H2. unfold search_base_url. cbv zeta.
  set (u2 := if truthy c then _ else _).
  pose proof (date_filter_ok sd "publishedAfter" "T00:00:00Z" msg_bad_start u2 H1) as W1.
  destruct (date_filter (or_none sd) "publishedAfter" "T00:00:00Z" msg_bad_start u2) as [u3 w1].
  pose proof (date_filter_ok ed "publishedBefore" "T23:59:59Z" msg_bad_end u3 H2) as W2.
  destruct (date_filter (or_none ed) "publishedBefore" "T23:59:59Z" msg_bad_end u3) as [u4 w2].
  simpl in W1, W2 |- *. subst. reflexivity.
Qed.

(** [on_run_button_click] only searches with a non-blank key, a query or a
    channel, and dates that all parse; the URL then carries no date
    warning, and the results are saved to
    "<file name or youtube_results>_<today>.xlsx" exactly when there are
    some. *)
Theorem on_run_searched (env_key : option string) (q c sd ed fname today : string)
  (fuel : nat) (server : nat -> page_response)
  (write : string -> list video_record -> Summarizer.result unit)
  (url : string) (warnings : list string) (saved : save_outcome)
  (Hr : on_run_button_click env_key q c sd ed fname today fuel server write
        = Searched url warnings saved) :
  truthy (strip (match env_key with Some k => k | None => EmptyString end)) = true /\
  (truthy (strip q) || truthy (strip c)) = true /\
  (truthy (strip sd) = true -> exists d, strptime_ymd (strip sd) = Some d) /\
  (truthy (strip ed) = true -> exists d, strptime_ymd (strip ed) = Some d) /\
  warnings = [] /\
  let videos := video_details (fst (fetch_youtube_data fuel server)) in
  let file_path := (if truthy (strip fname) then strip fname else "youtube_results")
                   ++ "_" ++ today ++ ".xlsx" in
  match saved with
  | NoResults => videos = []
  | SavedTo p rows => videos <> [] /\ p = file_path /\ rows = videos /\ write p rows = Summarizer.Ok tt
  | SaveFailed p m => videos <> [] /\ p = file_path /\ write p videos = Summarizer.Exc m
  end.
Proof.
  unfold on_run_button_click in Hr. cbv zeta in Hr |- *.
  destruct (truthy (strip (match env_key with Some k => k | None => EmptyString end))) eqn:K;
    [|discriminate].
  assert (QC : (truthy (strip q) || truthy (strip c)) = true).
  { destruct (truthy (strip q)), (truthy (strip c)); try reflexivity; discriminate Hr. }
  replace (negb (truthy (strip q)) && negb (truthy (strip c))) with false in Hr
    by (destruct (truthy (strip q)), (truthy (strip c)); auto; discriminate).
  destruct (first_bad_date [("시작 날짜", strip sd); ("종료 날짜", strip ed)]) eqn:B;
    [discriminate|].
  destruct (first_bad_date_none _ _ _ _ B) as [D1 D2].
  pose proof (search_base_url_warnings
                (strip (match env_key with Some k => k | None => EmptyString end))
                (strip q) (strip c) (strip sd) (strip ed) D1 D2) as W.
  destruct (search_base_url _ _ _ _ _) as [u w]. simpl in W. subst w.
  cbn [negb] in Hr. split; [reflexivity|]. do 3 (split; [assumption|]).
  destruct (video_details (fst (fetch_youtube_data fuel server))) as [|v vs] eqn:V.
  - injection Hr as _ <- <-. auto.
  - destruct (write _ (v :: vs)) as [[]|m] eqn:Wr; injection Hr as _ <- <-;
      repeat split; auto; discriminate.
Qed.

Lemma on_run_searched_witness :
  exists url,
    on_run_button_click (Some "key") " cats " "" "" "" "" "2024-01-01" 1
      (fun _ => PageOk [Fixtures.ok_hit] None) (fun _ _ => Summarizer.Ok tt)
    = Searched url [] (SavedTo "youtube_results_2024-01-01.xlsx"
        (video_details (fst (fetch_youtube_data 1 (fun _ => PageOk [Fixtures.ok_hit] None))))) /\
    video_details (fst (fetch_youtube_data 1 (fun _ => PageOk [Fixtures.ok_hit] None))) <> [].
Proof.
  assert (E : exists url,
    on_run_button_click (Some "key") " cats " "" "" "" "" "2024-01-01" 1
      (fun _ => PageOk [Fixtures.ok_hit] None) (fun _ _ => Summarizer.Ok tt)
    = Searched url [] (SavedTo "youtube_results_2024-01-01.xlsx"
        (video_details (fst (fetch_youtube_data 1 (fun _ => PageOk [Fixtures.ok_hit] None))))))
    by (eexists; reflexivity).
  destruct E as [url H]. exists url. split; [exact H|].
  destruct (on_run_searched _ _ _ _ _ _ _ _ _ _ _ _ _ H) as [_ [_ [_ [_ [_ F]]]]].
  exact (proj1 F).
Defined.

(** The input errors of [on_run_button_click] (missing key, no query and no
    channel, bad date) are reported before any request or file write: the
    outcome does not depend on the server or the file system. *)
Theorem on_run_rejects_before_search (env_key : option string) (q c sd ed fname today : string)
  (fuel : nat) (server : nat -> page_response)
  (write : string -> list video_record -> Summarizer.result unit) :
  match on_run_button_click env_key q c sd ed fname today fuel server write with
  | Searched _ _ _ => True
  | r => forall fuel' server' write',
           on_run_button_click env_key q c sd ed fname today fuel' server' write' = r
  end.
Proof.
  unfold on_run_button_click. cbv zeta.
  destruct (truthy (strip (match env_key with Some k => k | None => EmptyString end)));
    cbn [negb]; [|intros; reflexivity].
  destruct (negb (truthy (strip q)) && negb (truthy (strip c))); [intros; reflexivity|].
  destruct (first_bad_date [("시작 날짜", strip sd); ("종료 날짜", strip ed)]);
    [intros; reflexivity|].
  destruct (search_base_url _ _ _ _ _).
  destruct (video_details (fst (fetch_youtube_data fuel server))); [exact I|].
  destruct (write _ _); exact I.
Qed.

End SearchGuiExtras.

Module SearchFlowExtras.
Import PyStr Extract Search Fixtures.

Lemma enrich_page_urls (hs : list hit) :
  forall off idx r, In r (enrich_page off idx hs) ->
  exists h, In h hs /\ is_detail_ok h = true /\
    URL r = "https://www.youtube.com/watch?v=" ++ hit_video_id h.
Proof.
  induction hs as [|h hs IH]; intros off idx r Hin; [destruct Hin|].
  simpl in Hin. destruct (hit_detail h) as [m| |d] eqn:Hd.
  - destruct (IH _ _ _ Hin) as [h' [? ?]]. exists h'. simpl. tauto.
  - destruct (IH _ _ _ Hin) as [h' [? ?]]. exists h'. simpl. tauto.
  - destruct Hin as [<-|Hin].
    + exists h. unfold is_detail_ok. rewrite Hd. simpl. auto.
    + destruct (IH _ _ _ Hin) as [h' [? ?]]. exists h'. simpl. tauto.
Qed.

(** Every row [fetch_youtube_data] collects comes from a search hit whose
    details were found, and its URL is read back by the summarizer's
    [extract_video_id] as that hit's video id, for any well-formed id. *)
Theorem search_urls_extract (fuel : nat) (server : nat -> page_response) :
  let st := fst (fetch_youtube_data fuel server) in
  forall r, In r (video_details st) ->
  exists h, In h (seen_hits st) /\ is_detail_ok h = true /\
    (valid_id (hit_video_id h) = true ->
     extract_video_id (PyStr (URL r)) = Some (hit_video_id h)).
Proof.
  cbv zeta. intros r Hin.
  assert (I0 : run_inv (mkState [] 0 0 [])) by (split; reflexivity).
  destruct (SearchFacts.fetch_loop_inv server fuel _ I0) as [E _].
  unfold fetch_youtube_data in Hin |- *. rewrite E in Hin.
  destruct (enrich_page_urls _ _ _ _ Hin) as [h [Hh [Ok U]]].
  exists h. repeat split; auto. intros V.
  unfold extract_video_id. rewrite U. simpl.
  apply ExtractFacts.extract_canonical. exact V.
Qed.

Lemma search_urls_extract_witness :
  exists r,
    In r (video_details (fst (fetch_youtube_data 1 (fun _ => PageOk [ok_hit] None)))) /\
    extract_video_id (PyStr (URL r)) = Some "dQw4w9WgXcQ".
Proof.
  assert (Hin : In (make_record 1 0 "dQw4w9WgXcQ" sample_info)
                  (video_details (fst (fetch_youtube_data 1 (fun _ => PageOk [ok_hit] None)))))
    by (left; reflexivity).
  destruct (search_urls_extract 1 (fun _ => PageOk [ok_hit] None) _ Hin) as [h [Hh [_ E]]].
  destruct Hh as [<- | []].
  exists (make_record 1 0 "dQw4w9WgXcQ" sample_info). split; [exact Hin|].
  exact (E eq_refl).
Defined.

End SearchFlowExtras.
